(** * ospd-ssh-keyscan: the scan wrapper [OSPDsshkeyscan]

    A shallow embedding of [src/ospd_ssh_keyscan/wrapper.py] and the
    properties of its two methods, [check] and [exec_scan].

    The wrapper hands the output of the external tool on as
    [subprocess.check_output] returns it, without decoding it, and nothing
    in the source says which Python runs it.  The embedding therefore takes
    the interpreter as a parameter [py]:
    - on Python 2 the output is a [str]: [line[0]] is a one-character
      string, [%s] prints a field as it is, and [join] joins the lines;
    - on Python 3 the output is a [bytes] object: [line[0]] is an integer,
      never equal to ['#'], [%s] prints a field as its [repr], [b'...'], and
      ['\n'.join] raises [TypeError] on a list that holds a line.
    [splitlines] and [split()] act alike on both: lines end at LF, CR and
    CR LF, fields are the runs between the six ASCII white-space characters.

    What the daemon framework owns is kept abstract: the result sink is the
    ordered list of the reporting calls made on it, and the options of a scan
    are a dictionary handed out by [get_scan_options]. *)

From Stdlib Require Import ZArith List String Ascii Bool Lia DecimalString.
From stdpp Require Import base option gmap strings.
Import ListNotations.

Local Open Scope Z_scope.
Local Open Scope string_scope.
Local Open Scope list_scope.

(** ** Python values, exceptions and the reporting monad *)

(** The values an option of a scan can hold. *)
Inductive pyval : Type :=
  | PyNone
  | PyBool (b : bool)
  | PyInt (z : Z)
  | PyStr (s : string).

(** Truth value of a Python object, as [if v:] tests it. *)
Definition truthy (v : pyval) : bool :=
  match v with
  | PyNone => false
  | PyBool b => b
  | PyInt z => negb (Z.eqb z 0)
  | PyStr s => negb (String.eqb s "")
  end.

(** The exceptions that can occur in the wrapper.  [CalledProcessError]
    carries the exit status and the output of the process. *)
Inductive exn : Type :=
  | OSError
  | CalledProcessError (returncode : Z) (output : option string)
  | TypeError
  | ValueError
  | IndexError.

(** The interpreter that runs the wrapper. *)
Inductive python : Type := Py2 | Py3.

(** A text handed to the sink: a [str], or a [bytes] object, which is what a
    field of the output is on Python 3. *)
Inductive pytext : Type :=
  | Str (s : string)
  | Bytes (s : string).

Definition content (t : pytext) : string :=
  match t with Str s | Bytes s => s end.

(** The calls a scan makes on the result sink of the framework.  The host of
    a host detail is a field of the output; every other argument is a
    [str]. *)
Inductive sink_call : Type :=
  | add_scan_host_detail (scan_id : string) (host : pytext) (name value : string)
  | add_scan_log (scan_id host name value : string)
  | add_scan_error (scan_id host value : string).

(** How a piece of Python code ends: with a value or with an exception. *)
Inductive outcome (A : Type) : Type :=
  | Return (a : A)
  | Raise (e : exn).
Arguments Return {A} a.
Arguments Raise {A} e.

(** A computation: the sink calls it made, in order, and how it ended.  The
    calls made before an exception stay made. *)
Definition M (A : Type) : Type := (list sink_call * outcome A)%type.

Definition ret {A} (a : A) : M A := ([], Return a).

Definition raise {A} (e : exn) : M A := ([], Raise e).

Definition bind {A B} (m : M A) (f : A -> M B) : M B :=
  match m with
  | (t, Return a) => let '(t', r) := f a in (t ++ t', r)
  | (t, Raise e) => (t, Raise e)
  end.

Definition emit (c : sink_call) : M unit := ([c], Return tt).

(** [try: m  except ValueError: h]. *)
Definition try_except_ValueError {A} (m : M A) (h : M A) : M A :=
  match m with
  | (t, Raise ValueError) => let '(t', r) := h in (t ++ t', r)
  | _ => m
  end.

Declare Scope py_scope.
Delimit Scope py_scope with py.
Notation "x <- m ;; k" := (bind m (fun x => k))
  (at level 100, m at next level, right associativity) : py_scope.
Notation "m ;; k" := (bind m (fun _ => k))
  (at level 100, right associativity) : py_scope.
Local Open Scope py_scope.

Definition trace {A} (m : M A) : list sink_call := fst m.
Definition result {A} (m : M A) : outcome A := snd m.

(** ** The string operations of Python the wrapper uses *)

Definition LF : ascii := "010"%char.
Definition CR : ascii := "013"%char.

(** [s.splitlines()] on a byte string: a line ends at LF, CR or CR LF, the
    terminators are dropped, and a terminator at the very end opens no
    further line.  [cur] is the line read so far. *)
Fixpoint splitlines_from (cur : string) (s : string) : list string :=
  match s with
  | EmptyString => if String.eqb cur "" then [] else [cur]
  | String c rest =>
      if Ascii.eqb c LF then cur :: splitlines_from "" rest
      else if Ascii.eqb c CR then
        match rest with
        | String c' rest' =>
            if Ascii.eqb c' LF then cur :: splitlines_from "" rest'
            else cur :: splitlines_from "" rest
        | EmptyString => cur :: splitlines_from "" rest
        end
      else splitlines_from (cur +:+ String c "") rest
  end.

Definition splitlines (s : string) : list string := splitlines_from "" s.

(** White space of a byte string: space, TAB, LF, VT, FF, CR. *)
Definition isspace (c : ascii) : bool :=
  let n := nat_of_ascii c in
  (Nat.eqb n 32 || (Nat.leb 9 n && Nat.leb n 13))%bool.

(** [s.split()]: the maximal runs of characters that are not white space. *)
Fixpoint split_from (cur : string) (s : string) : list string :=
  match s with
  | EmptyString => if String.eqb cur "" then [] else [cur]
  | String c rest =>
      if isspace c then
        if String.eqb cur "" then split_from "" rest
        else cur :: split_from "" rest
      else split_from (cur +:+ String c "") rest
  end.

Definition split (s : string) : list string := split_from "" s.

(** A piece of the output, as the interpreter types it. *)
Definition output_text (py : python) (s : string) : pytext :=
  match py with Py2 => Str s | Py3 => Bytes s end.

(** [sep.join(l)] for a [str] separator and lines of the output: the lines
    joined on Python 2; on Python 3, where the lines are [bytes],
    [TypeError] as soon as there is a line to join. *)
Definition join (py : python) (sep : string) (l : list string) : M string :=
  match py, l with
  | Py2, _ => ret (String.concat sep l)
  | Py3, [] => ret ""
  | Py3, _ :: _ => raise TypeError
  end.

(** An item of the output: a one-character string on Python 2, an integer
    on Python 3. *)
Inductive pyitem : Type :=
  | OneChar (c : ascii)
  | IntItem (n : nat).

(** [s[0]]: the first item, [IndexError] on the empty string. *)
Definition getitem0 (py : python) (s : string) : M pyitem :=
  match s with
  | EmptyString => raise IndexError
  | String c _ =>
      ret (match py with Py2 => OneChar c | Py3 => IntItem (nat_of_ascii c) end)
  end.

(** [x == c] for a one-character string [c]: an integer is never equal to
    it. *)
Definition eq_char (x : pyitem) (c : ascii) : bool :=
  match x with
  | OneChar c' => Ascii.eqb c' c
  | IntItem _ => false
  end.

(** [a, b, c = l]: [ValueError] unless [l] has exactly three items. *)
Definition unpack3 (l : list string) : M (string * string * string) :=
  match l with
  | [a; b; c] => ret (a, b, c)
  | _ => raise ValueError
  end.

(** Decimal notation of an integer, as [%d] prints it. *)
Definition str_of_Z (z : Z) : string := NilZero.string_of_int (Z.to_int z).

(** The conversion [%d] applies to its argument: [TypeError] unless it is a
    number. *)
Definition format_d (v : pyval) : M string :=
  match v with
  | PyInt z => ret (str_of_Z z)
  | PyBool b => ret (if b then "1" else "0")
  | PyNone | PyStr _ => raise TypeError
  end.

(** The [repr] of a [bytes] object: [b], a quote, the bytes with the quote,
    the backslash and the bytes outside the printable ASCII range escaped,
    and the quote.  The quote is the double one only when the bytes hold a
    single quote and no double one. *)
Definition SQUOTE : ascii := "039"%char.
Definition DQUOTE : ascii := "034"%char.
Definition BACKSLASH : ascii := "092"%char.
Definition TAB : ascii := "009"%char.

Fixpoint contains (c : ascii) (s : string) : bool :=
  match s with
  | EmptyString => false
  | String c' rest => (Ascii.eqb c' c || contains c rest)%bool
  end.

Definition repr_quote (s : string) : ascii :=
  if (contains SQUOTE s && negb (contains DQUOTE s))%bool then DQUOTE
  else SQUOTE.

Definition hex_digit (n : nat) : ascii :=
  nth n ["0"; "1"; "2"; "3"; "4"; "5"; "6"; "7"; "8"; "9";
         "a"; "b"; "c"; "d"; "e"; "f"]%char "0"%char.

Definition escape_byte (quote : ascii) (c : ascii) : string :=
  let n := nat_of_ascii c in
  if (Ascii.eqb c quote || Ascii.eqb c BACKSLASH)%bool
  then String BACKSLASH (String c "")
  else if Ascii.eqb c TAB then String BACKSLASH "t"
  else if Ascii.eqb c LF then String BACKSLASH "n"
  else if Ascii.eqb c CR then String BACKSLASH "r"
  else if (Nat.ltb n 32 || Nat.leb 127 n)%bool
  then String BACKSLASH
         (String "x" (String (hex_digit (n / 16))
                        (String (hex_digit (n mod 16)) "")))
  else String c "".

Fixpoint escape_bytes (quote : ascii) (s : string) : string :=
  match s with
  | EmptyString => EmptyString
  | String c rest => escape_byte quote c +:+ escape_bytes quote rest
  end.

Definition bytes_repr (s : string) : string :=
  let quote := repr_quote s in
  String "b" (String quote (escape_bytes quote s +:+ String quote "")).

(** What [%s] prints for a field of the output: the field itself on
    Python 2, its [repr] on Python 3. *)
Definition format_s (py : python) (s : string) : string :=
  match py with Py2 => s | Py3 => bytes_repr s end.

(** [d.get(k)]: [None] for a missing key. *)
Definition dict_get (d : gmap string pyval) (k : string) : pyval :=
  default PyNone (d !! k).

(** ** The external process *)

(** What running a command line does: the executable cannot be launched, or
    it runs and exits with a status, its combined output captured.  The
    captured output of a real process is always a string; [None] stands for
    Python's [None], which [exec_scan] tests for. *)
Inductive process : Type :=
  | LaunchFailed
  | Exited (returncode : Z) (output : option string).

Definition subprocess : Type := list string -> process.

(** [subprocess.check_output(argv, stderr=subprocess.STDOUT)]: the output of
    a process that exits with status 0; [CalledProcessError] for any other
    status; [OSError] when the executable cannot be launched.  The output
    is a [str] on Python 2 and a [bytes] object on Python 3; the model
    keeps its characters. *)
Definition check_output (os : subprocess) (argv : list string)
  : M (option string) :=
  match os argv with
  | LaunchFailed => raise OSError
  | Exited rc out =>
      if Z.eqb rc 0 then ret out else raise (CalledProcessError rc out)
  end.

(** ** The daemon *)

(** The part of the daemon object the wrapper reads: the options of each
    scan, as the framework resolved them. *)
Record OSPDsshkeyscan : Type := {
  get_scan_options : string -> gmap string pyval
}.

(** [check]: is the ssh-keyscan command line tool found and executable? *)
Definition check (os : subprocess) : M bool :=
  match check_output os ["ssh-keyscan"] with
  | (t, Raise OSError) =>
      (* the command is not available *)
      (t, Return false)
  | (t, Raise (CalledProcessError _ _)) =>
      (* the command is there, it is just unhappy without a parameter *)
      (t, Return true)
  | (t, Raise e) => (t, Raise e)
  | (t, Return _) => (t, Return true)
  end.

(** [for line in lines: st = body st line]. *)
Fixpoint for_each {S : Type} (body : S -> string -> M S)
    (lines : list string) (st : S) : M S :=
  match lines with
  | [] => ret st
  | line :: rest => st' <- body st line ;; for_each body rest st'
  end.

(** One turn of the parsing loop of [exec_scan]; the state is the pair of
    accumulators [(key_data, parse_errors)]. *)
Definition scan_line (py : python) (scan_id : string) (port : pyval)
    (st : list string * list string) (line : string)
  : M (list string * list string) :=
  let '(key_data, parse_errors) := st in
  c <- getitem0 py line ;;
  if eq_char c "#"%char then ret (key_data, parse_errors)
  else
    parsed <- try_except_ValueError
                (fields <- unpack3 (split line) ;; ret (inr fields))
                (* parse_errors.append(line); continue *)
                (ret (inl (key_data, parse_errors ++ [line]))) ;;
    match parsed with
    | inl st' => ret st'
    | inr (host, keytype, key) =>
        p <- format_d port ;;
        emit (add_scan_host_detail scan_id (output_text py host) "ssh-key"
                (p +:+ " " +:+ format_s py keytype +:+ " "
                   +:+ format_s py key)) ;;
        ret (key_data ++ [line], parse_errors)
    end.

(** [exec_scan]: starts the ssh-keyscan scanner for the scan [scan_id]. *)
Definition exec_scan (py : python) (self : OSPDsshkeyscan) (os : subprocess)
    (scan_id target : string) : M Z :=
  let options := get_scan_options self scan_id in
  let port := dict_get options "sshport" in
  p <- format_d port ;;
  result <- check_output os ["ssh-keyscan"; "-p " +:+ p; target] ;;
  match result with
  | None =>
      emit (add_scan_error scan_id target
              "A problem occurred trying to execute 'ssh-keyscan'.") ;;
      emit (add_scan_error scan_id target
              "The result of 'ssh-keyscan' was empty.") ;;
      ret 2
  | Some result =>
      st <- for_each (scan_line py scan_id port) (splitlines result) ([], []) ;;
      let '(key_data, parse_errors) := st in
      n <- format_d (PyInt (Z.of_nat (length key_data))) ;;
      p <- format_d port ;;
      emit (add_scan_log scan_id target "ssh-keyscan summary"
              ("Via ssh-keyscan " +:+ n +:+ " public ssh keys were found at port "
                 +:+ p +:+ ".")) ;;
      (if Nat.ltb 0 (length parse_errors) then
         bad <- join py (String LF "") parse_errors ;;
         emit (add_scan_error scan_id target
                 ("The following lines caused parse errors:"
                    +:+ String LF (String LF "") +:+ bad))
       else ret tt) ;;
      (if truthy (dict_get options "sshkeyaslog") then
         keys <- join py (String LF "") key_data ;;
         emit (add_scan_log scan_id target "ssh-keyscan key dump"
                 ("Via ssh-keyscan found keys:"
                    +:+ String LF (String LF "") +:+ keys))
       else ret tt) ;;
      ret 1
  end.

(** ** Vocabulary of the properties *)

(** A line whose first character is [#]. *)
Definition starts_with_hash (line : string) : bool :=
  match line with
  | String c _ => Ascii.eqb c "#"%char
  | EmptyString => false
  end.

(** A line the comment test of the loop takes for a comment: on Python 2 a
    line that starts with [#]; on Python 3 none. *)
Definition is_comment (py : python) (line : string) : bool :=
  match py with
  | Py2 => starts_with_hash line
  | Py3 => false
  end.

(** The three fields of a line that splits into exactly three. *)
Definition fields (line : string) : option (string * string * string) :=
  match split line with
  | [host; keytype; key] => Some (host, keytype, key)
  | _ => None
  end.

Definition has_fields (line : string) : bool :=
  match fields line with Some _ => true | None => false end.

(** A key line: not taken for a comment, and exactly three fields. *)
Definition is_key_line (py : python) (line : string) : bool :=
  negb (is_comment py line) && has_fields line.

(** A malformed line: not taken for a comment, and not exactly three
    fields. *)
Definition is_error_line (py : python) (line : string) : bool :=
  negb (is_comment py line) && negb (has_fields line).

Definition key_lines (py : python) (lines : list string) : list string :=
  List.filter (is_key_line py) lines.

Definition error_lines (py : python) (lines : list string) : list string :=
  List.filter (is_error_line py) lines.

(** The host-detail record of a key: port, key type and key, as [%d] and
    [%s] print them, under the name [ssh-key], attributed to the host the
    line names. *)
Definition key_detail (py : python) (scan_id p host keytype key : string)
  : sink_call :=
  add_scan_host_detail scan_id (output_text py host) "ssh-key"
    (p +:+ " " +:+ format_s py keytype +:+ " " +:+ format_s py key).

(** The host-detail calls one line accounts for: one for a key line, none
    for any other. *)
Definition details_of (py : python) (scan_id p : string) (line : string)
  : list sink_call :=
  if is_comment py line then []
  else match fields line with
       | Some (host, keytype, key) => [key_detail py scan_id p host keytype key]
       | None => []
       end.

Definition summary_entry (scan_id target p : string) (n : nat) : sink_call :=
  add_scan_log scan_id target "ssh-keyscan summary"
    ("Via ssh-keyscan " +:+ str_of_Z (Z.of_nat n)
       +:+ " public ssh keys were found at port " +:+ p +:+ ".").

Definition parse_error_entry (scan_id target : string) (bad : list string)
  : sink_call :=
  add_scan_error scan_id target
    ("The following lines caused parse errors:" +:+ String LF (String LF "")
       +:+ String.concat (String LF "") bad).

Definition key_dump_entry (scan_id target : string) (keys : list string)
  : sink_call :=
  add_scan_log scan_id target "ssh-keyscan key dump"
    ("Via ssh-keyscan found keys:" +:+ String LF (String LF "")
       +:+ String.concat (String LF "") keys).

(** The kinds of sink calls. *)
Definition is_host_detail (c : sink_call) : bool :=
  match c with add_scan_host_detail _ _ _ _ => true | _ => false end.

Definition is_error (c : sink_call) : bool :=
  match c with add_scan_error _ _ _ => true | _ => false end.

Definition is_log_named (name : string) (c : sink_call) : bool :=
  match c with add_scan_log _ _ n _ => String.eqb n name | _ => false end.

Definition host_details (t : list sink_call) : list sink_call :=
  List.filter is_host_detail t.
Definition errors (t : list sink_call) : list sink_call :=
  List.filter is_error t.
Definition summaries (t : list sink_call) : list sink_call :=
  List.filter (is_log_named "ssh-keyscan summary") t.
Definition key_dumps (t : list sink_call) : list sink_call :=
  List.filter (is_log_named "ssh-keyscan key dump") t.

(** The command line of a scan. *)
Definition keyscan_argv (p target : string) : list string :=
  ["ssh-keyscan"; "-p " +:+ p; target].

(** The whole trace of a scan that runs to its end. *)
Definition full_trace (py : python) (scan_id target p : string) (dump : bool)
    (lines : list string) : list sink_call :=
  flat_map (details_of py scan_id p) lines
    ++ [summary_entry scan_id target p (length (key_lines py lines))]
    ++ (if Nat.ltb 0 (length (error_lines py lines))
        then [parse_error_entry scan_id target (error_lines py lines)] else [])
    ++ (if dump then [key_dump_entry scan_id target (key_lines py lines)] else []).

(** Whether the joins of the malformed lines and of the key lines, where
    the scan makes them, succeed: always on Python 2; on Python 3 only with
    no malformed line and, when the key dump is on, no key line. *)
Definition joins_succeed (py : python) (dump : bool) (lines : list string)
  : bool :=
  match py with
  | Py2 => true
  | Py3 =>
      Nat.eqb (length (error_lines py lines)) 0
      && (negb dump || Nat.eqb (length (key_lines py lines)) 0)
  end.

(** The run of a scan on captured lines none of which is empty: all of its
    calls and the exit code 1 when the joins succeed; the host details, the
    summary and [TypeError] when one does not. *)
Definition scan_report (py : python) (scan_id target p : string) (dump : bool)
    (lines : list string) : M Z :=
  if joins_succeed py dump lines
  then (full_trace py scan_id target p dump lines, Return 1)
  else (flat_map (details_of py scan_id p) lines
          ++ [summary_entry scan_id target p (length (key_lines py lines))],
        Raise TypeError).

(** A line that is not empty. *)
Definition nonblank (line : string) : Prop := line <> "".

(** ** Concrete scans *)

(** A daemon whose scans all have the given two options. *)
Definition daemon (sshport sshkeyaslog : pyval) : OSPDsshkeyscan :=
  {| get_scan_options := fun _ =>
       <["sshport" := sshport]> (<["sshkeyaslog" := sshkeyaslog]> ∅) |}.

(** A system on which every command line ends the same way. *)
Definition tool (pr : process) : subprocess := fun _ => pr.

Definition NL : string := String LF "".

(** ** Vocabulary of the properties of every run *)

(** The scan a sink call is made for. *)
Definition scan_id_of (c : sink_call) : string :=
  match c with
  | add_scan_host_detail scan_id _ _ _ => scan_id
  | add_scan_log scan_id _ _ _ => scan_id
  | add_scan_error scan_id _ _ => scan_id
  end.

(** A number, as [%d] accepts it. *)
Definition is_number (v : pyval) : bool :=
  match v with
  | PyInt _ | PyBool _ => true
  | PyNone | PyStr _ => false
  end.

(** Every character of [s] passes [f]. *)
Fixpoint forall_chars (f : ascii -> bool) (s : string) : bool :=
  match s with
  | EmptyString => true
  | String c rest => f c && forall_chars f rest
  end.

(** A string without a line terminator. *)
Definition is_terminator (c : ascii) : bool :=
  (Ascii.eqb c LF || Ascii.eqb c CR)%bool.

Definition single_line (s : string) : bool :=
  forall_chars (fun c => negb (is_terminator c)) s.

(** A string without white space, and a word: such a string that is not
    empty. *)
Definition no_space (s : string) : bool :=
  forall_chars (fun c => negb (isspace c)) s.

Definition is_word (w : string) : bool :=
  negb (String.eqb w "") && no_space w.

(** A string of white space only. *)
Definition all_space (s : string) : bool := forall_chars isspace s.

(** What a property of sink calls has to cover to hold of every call of a
    scan: the host detail of every three-field line, with the port as [%d]
    prints it, and the log and error entries for the target. *)
Definition covers_scan (py : python) (scan_id target : string) (port : pyval)
    (P : sink_call -> Prop) : Prop :=
  (forall line p host keytype key,
      format_d port = ret p ->
      split line = [host; keytype; key] ->
      P (key_detail py scan_id p host keytype key))
  /\ (forall name value, P (add_scan_log scan_id target name value))
  /\ (forall value, P (add_scan_error scan_id target value)).

(** ** The operations on examples *)

Example splitlines_terminators :
  splitlines ("a" +:+ NL +:+ "b" +:+ String CR NL +:+ "c" +:+ String CR "d")
  = ["a"; "b"; "c"; "d"].
Proof. reflexivity. Qed.

Example splitlines_empty_lines :
  splitlines "" = [] /\ splitlines NL = [""]
  /\ splitlines ("a" +:+ NL +:+ NL +:+ "b" +:+ NL) = ["a"; ""; "b"].
Proof. repeat split. Qed.

Example split_runs :
  split "  host1   ssh-rsa AAAA " = ["host1"; "ssh-rsa"; "AAAA"]
  /\ split "" = [] /\ split "   " = [] /\ split "badline" = ["badline"].
Proof. repeat split. Qed.

Example format_d_values :
  format_d (PyInt 22) = ret "22" /\ format_d (PyInt (-7)) = ret "-7"
  /\ format_d (PyInt 0) = ret "0" /\ format_d PyNone = raise TypeError.
Proof. repeat split. Qed.

Example bytes_repr_values :
  bytes_repr "ssh-rsa" = "b'ssh-rsa'"
  /\ bytes_repr "it's" = String "b" (String DQUOTE ("it's" +:+ String DQUOTE ""))
  /\ bytes_repr (String "255" (String BACKSLASH "")) = "b'\xff\\'".
Proof. repeat split. Qed.

(** The scan of four lines, a comment, a key, a malformed line and a second
    key, at port 22, on Python 2: two host details for [host1], the summary
    with the count 2, and one error entry holding the malformed line. *)
Example exec_scan_four_lines :
  exec_scan Py2 (daemon (PyInt 22) (PyInt 0))
    (tool (Exited 0 (Some ("# comment" +:+ NL
                             +:+ "host1 ssh-rsa AAAAB3NzaC1yc2EA..." +:+ NL
                             +:+ "badline" +:+ NL
                             +:+ "host1 ecdsa-sha2-nistp256 AAAAE2VjZHNh..." +:+ NL))))
    "scan-1" "host1"
  = ([add_scan_host_detail "scan-1" (Str "host1") "ssh-key"
        "22 ssh-rsa AAAAB3NzaC1yc2EA...";
      add_scan_host_detail "scan-1" (Str "host1") "ssh-key"
        "22 ecdsa-sha2-nistp256 AAAAE2VjZHNh...";
      add_scan_log "scan-1" "host1" "ssh-keyscan summary"
        "Via ssh-keyscan 2 public ssh keys were found at port 22.";
      add_scan_error "scan-1" "host1"
        ("The following lines caused parse errors:" +:+ NL +:+ NL +:+ "badline")],
     Return 1%Z).
Proof. vm_compute. reflexivity. Qed.

(** The same scan on Python 3: the comment line is not skipped and counts
    as malformed, the values hold the [repr] of the fields, and the join of
    the malformed lines raises [TypeError] after the summary. *)
Example exec_scan_four_lines_bytes :
  exec_scan Py3 (daemon (PyInt 22) (PyInt 0))
    (tool (Exited 0 (Some ("# comment" +:+ NL
                             +:+ "host1 ssh-rsa AAAAB3NzaC1yc2EA..." +:+ NL
                             +:+ "badline" +:+ NL
                             +:+ "host1 ecdsa-sha2-nistp256 AAAAE2VjZHNh..." +:+ NL))))
    "scan-1" "host1"
  = ([add_scan_host_detail "scan-1" (Bytes "host1") "ssh-key"
        "22 b'ssh-rsa' b'AAAAB3NzaC1yc2EA...'";
      add_scan_host_detail "scan-1" (Bytes "host1") "ssh-key"
        "22 b'ecdsa-sha2-nistp256' b'AAAAE2VjZHNh...'";
      add_scan_log "scan-1" "host1" "ssh-keyscan summary"
        "Via ssh-keyscan 2 public ssh keys were found at port 22."],
     Raise TypeError).
Proof. vm_compute. reflexivity. Qed.

(** ** The monad and the loop *)

Lemma bind_ret_l {A B} (a : A) (f : A -> M B) : bind (ret a) f = f a.
Proof. unfold bind, ret. destruct (f a); reflexivity. Qed.

Lemma bind_pure {A B} (a : A) (f : A -> M B) :
  bind (([], Return a) : M A) f = f a.
Proof. apply bind_ret_l. Qed.

Lemma bind_assoc {A B C} (m : M A) (f : A -> M B) (g : B -> M C) :
  bind (bind m f) g = bind m (fun a => bind (f a) g).
Proof.
  destruct m as [t [a|e]]; simpl; [|reflexivity].
  destruct (f a) as [t1 [b|e1]]; simpl; [|reflexivity].
  destruct (g b) as [t2 r]. now rewrite app_assoc.
Qed.

Lemma bind_ext {A B} (m : M A) (f g : A -> M B) :
  (forall a, f a = g a) -> bind m f = bind m g.
Proof. intros H. destruct m as [t [a|e]]; cbn; [now rewrite H|reflexivity]. Qed.

Lemma for_each_app {S} (body : S -> string -> M S) (l1 l2 : list string) :
  forall st,
    for_each body (l1 ++ l2) st
    = bind (for_each body l1 st) (fun st' => for_each body l2 st').
Proof.
  induction l1 as [|line l1 IH]; intros st; cbn [for_each app].
  - now rewrite bind_ret_l.
  - rewrite bind_assoc.
    destruct (body st line) as [t [st'|e]]; [|reflexivity].
    unfold bind at 1 3. now rewrite IH.
Qed.

Lemma format_d_no_call (v : pyval) (t : list sink_call) (r : outcome string) :
  format_d v = (t, r) -> t = [].
Proof.
  destruct v as [|[]|?|?]; unfold format_d, ret, raise; intros H;
    now inversion H.
Qed.

(** On Python 2 a line that starts with [#] leaves the accumulators as they
    are and makes no call. *)
Lemma scan_line_comment scan_id port st rest :
  scan_line Py2 scan_id port st (String "#" rest) = ret st.
Proof. destruct st; reflexivity. Qed.

Lemma scan_line_blank py scan_id port st :
  scan_line py scan_id port st "" = raise IndexError.
Proof. destruct st; reflexivity. Qed.

(** One turn of the loop on a line that is not empty. *)
Lemma scan_line_nonblank py scan_id port p kd pe line :
  line <> "" ->
  format_d port = ret p ->
  scan_line py scan_id port (kd, pe) line
  = (details_of py scan_id p line,
     Return (kd ++ key_lines py [line], pe ++ error_lines py [line])).
Proof.
  intros Hne Hp. destruct line as [|c rest]; [congruence|].
  unfold scan_line, details_of, key_lines, error_lines, is_key_line,
    is_error_line, has_fields, fields, key_detail, List.filter.
  cbn [getitem0]. rewrite bind_ret_l.
  destruct py; cbn [is_comment starts_with_hash eq_char];
    try destruct (Ascii.eqb c "#");
    try (cbn; now rewrite !app_nil_r);
    destruct (split (String c rest)) as [|x [|y [|z [|w l]]]];
    cbn; rewrite ?Hp; cbn; now rewrite ?app_nil_r.
Qed.

(** The loop on output without an empty line: each line accounts for its
    host-detail calls, and the accumulators grow by the key lines and the
    malformed lines, in order. *)
Lemma for_each_nonblank py scan_id port p lines :
  Forall nonblank lines ->
  format_d port = ret p ->
  forall kd pe,
    for_each (scan_line py scan_id port) lines (kd, pe)
    = (flat_map (details_of py scan_id p) lines,
       Return (kd ++ key_lines py lines, pe ++ error_lines py lines)).
Proof.
  intros Hall Hp. induction Hall as [|line lines Hne _ IH]; intros kd pe.
  - cbn. now rewrite !app_nil_r.
  - cbn [for_each flat_map].
    rewrite (scan_line_nonblank py scan_id port p kd pe line Hne Hp).
    cbn [bind]. rewrite IH. f_equal. f_equal.
    unfold key_lines, error_lines. cbn [List.filter].
    destruct (is_key_line py line), (is_error_line py line);
      now rewrite <- ?app_assoc, ?app_nil_r.
Qed.

(** The loop stops with [IndexError] at the first empty line; the calls made
    for the lines before it stay made. *)
Lemma for_each_blank py scan_id port p pre post :
  Forall nonblank pre ->
  format_d port = ret p ->
  forall st,
    for_each (scan_line py scan_id port) (pre ++ "" :: post) st
    = (flat_map (details_of py scan_id p) pre, Raise IndexError).
Proof.
  intros Hall Hp [kd pe]. rewrite for_each_app.
  rewrite (for_each_nonblank py scan_id port p pre Hall Hp).
  cbn [bind for_each]. rewrite scan_line_blank. cbn.
  now rewrite app_nil_r.
Qed.

(** ** The runs of [exec_scan] *)

Section Runs.
Variables (py : python) (self : OSPDsshkeyscan) (os : subprocess).
Variables (scan_id target : string) (p : Z).

Hypothesis sshport :
  get_scan_options self scan_id !! "sshport" = Some (PyInt p).

(** The tool cannot be launched: [OSError] leaves [exec_scan]. *)
Lemma exec_scan_launch_failed :
  os (keyscan_argv (str_of_Z p) target) = LaunchFailed ->
  exec_scan py self os scan_id target = ([], Raise OSError).
Proof.
  intros Hos. unfold exec_scan, dict_get. rewrite sshport.
  cbn [from_option id format_d]. rewrite bind_ret_l.
  unfold check_output. unfold keyscan_argv in Hos. now rewrite Hos.
Qed.

(** [check_output] returned [result]: [exec_scan] is what follows the
    call. *)
Lemma exec_scan_returned (result : option string) :
  os (keyscan_argv (str_of_Z p) target) = Exited 0 result ->
  exec_scan py self os scan_id target
  = match result with
    | None =>
        ([add_scan_error scan_id target
            "A problem occurred trying to execute 'ssh-keyscan'.";
          add_scan_error scan_id target
            "The result of 'ssh-keyscan' was empty."], Return 2)
    | Some out =>
        st <- for_each (scan_line py scan_id (PyInt p)) (splitlines out)
                ([], []) ;;
        emit (summary_entry scan_id target (str_of_Z p) (length (fst st))) ;;
        (if Nat.ltb 0 (length (snd st)) then
           bad <- join py (String LF "") (snd st) ;;
           emit (add_scan_error scan_id target
                   ("The following lines caused parse errors:"
                      +:+ String LF (String LF "") +:+ bad))
         else ret tt) ;;
        (if truthy (dict_get (get_scan_options self scan_id) "sshkeyaslog")
         then
           keys <- join py (String LF "") (fst st) ;;
           emit (add_scan_log scan_id target "ssh-keyscan key dump"
                   ("Via ssh-keyscan found keys:"
                      +:+ String LF (String LF "") +:+ keys))
         else ret tt) ;;
        ret 1
    end.
Proof.
  intros Hos. unfold exec_scan. unfold dict_get at 1 2 3.
  rewrite sshport. cbn [from_option id format_d]. rewrite bind_ret_l.
  unfold check_output. unfold keyscan_argv in Hos. rewrite Hos.
  cbn [Z.eqb]. rewrite bind_ret_l.
  destruct result as [out|]; [|reflexivity].
  apply bind_ext. intros [kd pe]. cbn [fst snd].
  now rewrite !bind_ret_l.
Qed.

(** A scan of captured output without an empty line. *)
Lemma exec_scan_captured (out : string) :
  os (keyscan_argv (str_of_Z p) target) = Exited 0 (Some out) ->
  Forall nonblank (splitlines out) ->
  exec_scan py self os scan_id target
  = scan_report py scan_id target (str_of_Z p)
      (truthy (dict_get (get_scan_options self scan_id) "sshkeyaslog"))
      (splitlines out).
Proof.
  intros Hos Hall. rewrite (exec_scan_returned (Some out) Hos).
  rewrite (for_each_nonblank py scan_id (PyInt p) (str_of_Z p) _ Hall eq_refl).
  cbn [bind fst snd app]. unfold scan_report, joins_succeed, full_trace.
  unfold parse_error_entry, key_dump_entry.
  destruct py, (error_lines _ (splitlines out)) as [|b bs],
    (key_lines _ (splitlines out)) as [|k ks],
    (truthy (dict_get (get_scan_options self scan_id) "sshkeyaslog"));
    cbn; rewrite ?app_nil_r; reflexivity.
Qed.

(** A scan whose output has an empty line. *)
Lemma exec_scan_blank (out : string) (pre post : list string) :
  os (keyscan_argv (str_of_Z p) target) = Exited 0 (Some out) ->
  splitlines out = pre ++ "" :: post ->
  Forall nonblank pre ->
  exec_scan py self os scan_id target
  = (flat_map (details_of py scan_id (str_of_Z p)) pre, Raise IndexError).
Proof.
  intros Hos Hsplit Hall. rewrite (exec_scan_returned (Some out) Hos).
  rewrite Hsplit.
  now rewrite (for_each_blank py scan_id (PyInt p) (str_of_Z p) _ _ Hall
                 eq_refl).
Qed.
End Runs.

(** The loop reports host details and nothing else, whatever the lines. *)
Lemma scan_line_trace py scan_id port st line :
  Forall (fun c => is_host_detail c = true)
    (trace (scan_line py scan_id port st line)).
Proof.
  destruct st as [kd pe]. destruct line as [|c rest]; [constructor|].
  unfold scan_line. cbn [getitem0]. rewrite bind_ret_l.
  destruct (eq_char _ "#"); [constructor|].
  destruct (split (String c rest)) as [|x [|y [|z [|w l]]]];
    try (cbn; constructor).
  cbn. destruct (format_d port) as [t [s|e]] eqn:Hp;
    destruct port as [|[]|?|?]; inversion Hp; subst; cbn;
    repeat constructor.
Qed.

Lemma for_each_trace py scan_id port lines :
  forall st,
    Forall (fun c => is_host_detail c = true)
      (trace (for_each (scan_line py scan_id port) lines st)).
Proof.
  induction lines as [|line lines IH]; intros st; cbn [for_each].
  - constructor.
  - pose proof (scan_line_trace py scan_id port st line) as H1.
    destruct (scan_line py scan_id port st line) as [t [st'|e]]; [|exact H1].
    specialize (IH st'). cbn [bind].
    destruct (for_each _ lines st') as [t' r]. cbn in *.
    apply Forall_app; split; assumption.
Qed.

Lemma details_of_host_detail py scan_id p lines :
  Forall (fun c => is_host_detail c = true)
    (flat_map (details_of py scan_id p) lines).
Proof.
  induction lines as [|line lines IH]; cbn [flat_map]; [constructor|].
  apply Forall_app; split; [|exact IH].
  unfold details_of. destruct (is_comment py line); [constructor|].
  destruct (fields line) as [[[h t] k]|]; repeat constructor.
Qed.

(** Selecting from a list of host details. *)
Lemma filter_host_details_all (t : list sink_call) :
  Forall (fun c => is_host_detail c = true) t ->
  host_details t = t.
Proof.
  unfold host_details. induction 1 as [|c t Hc _ IH]; cbn; [reflexivity|].
  now rewrite Hc, IH.
Qed.

Lemma filter_host_details_none (f : sink_call -> bool) (t : list sink_call) :
  (forall c, is_host_detail c = true -> f c = false) ->
  Forall (fun c => is_host_detail c = true) t ->
  List.filter f t = [].
Proof.
  intros Hf. induction 1 as [|c t Hc _ IH]; cbn; [reflexivity|].
  now rewrite (Hf c Hc).
Qed.

Lemma log_not_host_detail name c :
  is_host_detail c = true -> is_log_named name c = false.
Proof. destruct c; cbn; congruence. Qed.

Lemma error_not_host_detail c :
  is_host_detail c = true -> is_error c = false.
Proof. destruct c; cbn; congruence. Qed.

(** Every list of lines is free of empty lines or has a first one. *)
Lemma first_blank (lines : list string) :
  Forall nonblank lines
  \/ exists pre post, lines = pre ++ "" :: post /\ Forall nonblank pre.
Proof.
  induction lines as [|line lines IH]; [left; constructor|].
  destruct line as [|c rest].
  - right. exists [], lines. split; [reflexivity|constructor].
  - destruct IH as [Hall|(pre & post & -> & Hpre)].
    + left. constructor; [discriminate|exact Hall].
    + right. exists (String c rest :: pre), post. split; [reflexivity|].
      constructor; [discriminate|exact Hpre].
Qed.

(** ** What a scan of lines without an empty one has reported *)

Section Report.
Variables (py : python) (scan_id target p : string) (dump : bool).
Variable lines : list string.

Lemma full_trace_host_details :
  host_details (full_trace py scan_id target p dump lines)
  = flat_map (details_of py scan_id p) lines.
Proof.
  unfold full_trace, host_details. rewrite !List.filter_app.
  fold (host_details (flat_map (details_of py scan_id p) lines)).
  rewrite (filter_host_details_all _
             (details_of_host_detail py scan_id p lines)).
  destruct (Nat.ltb 0 (length (error_lines py lines))), dump; cbn;
    now rewrite app_nil_r.
Qed.

Lemma full_trace_summaries :
  summaries (full_trace py scan_id target p dump lines)
  = [summary_entry scan_id target p (length (key_lines py lines))].
Proof.
  unfold full_trace, summaries. rewrite !List.filter_app.
  rewrite (filter_host_details_none _ _
             (log_not_host_detail "ssh-keyscan summary")
             (details_of_host_detail py scan_id p lines)).
  destruct (Nat.ltb 0 (length (error_lines py lines))), dump; reflexivity.
Qed.

Lemma full_trace_errors :
  errors (full_trace py scan_id target p dump lines)
  = if Nat.ltb 0 (length (error_lines py lines))
    then [parse_error_entry scan_id target (error_lines py lines)] else [].
Proof.
  unfold full_trace, errors. rewrite !List.filter_app.
  rewrite (filter_host_details_none _ _ error_not_host_detail
             (details_of_host_detail py scan_id p lines)).
  destruct (Nat.ltb 0 (length (error_lines py lines))), dump; reflexivity.
Qed.

Lemma full_trace_key_dumps :
  key_dumps (full_trace py scan_id target p dump lines)
  = if dump then [key_dump_entry scan_id target (key_lines py lines)] else [].
Proof.
  unfold full_trace, key_dumps. rewrite !List.filter_app.
  rewrite (filter_host_details_none _ _
             (log_not_host_detail "ssh-keyscan key dump")
             (details_of_host_detail py scan_id p lines)).
  destruct (Nat.ltb 0 (length (error_lines py lines))), dump; reflexivity.
Qed.

(** Whether the joins succeed or not, the host details and the summary have
    been reported. *)
Lemma scan_report_host_details :
  host_details (trace (scan_report py scan_id target p dump lines))
  = flat_map (details_of py scan_id p) lines.
Proof.
  unfold scan_report. destruct (joins_succeed py dump lines); cbn [trace fst].
  - apply full_trace_host_details.
  - unfold host_details. rewrite List.filter_app.
    fold (host_details (flat_map (details_of py scan_id p) lines)).
    rewrite (filter_host_details_all _
               (details_of_host_detail py scan_id p lines)).
    cbn. now rewrite app_nil_r.
Qed.

Lemma scan_report_summaries :
  summaries (trace (scan_report py scan_id target p dump lines))
  = [summary_entry scan_id target p (length (key_lines py lines))].
Proof.
  unfold scan_report. destruct (joins_succeed py dump lines); cbn [trace fst].
  - apply full_trace_summaries.
  - unfold summaries. rewrite List.filter_app.
    now rewrite (filter_host_details_none _ _
                   (log_not_host_detail "ssh-keyscan summary")
                   (details_of_host_detail py scan_id p lines)).
Qed.

(** A key dump is reported only with the option on, and only when the joins
    succeed. *)
Lemma scan_report_key_dumps :
  key_dumps (trace (scan_report py scan_id target p dump lines))
  = if dump && joins_succeed py dump lines
    then [key_dump_entry scan_id target (key_lines py lines)] else [].
Proof.
  unfold scan_report. destruct (joins_succeed py dump lines); cbn [trace fst].
  - rewrite full_trace_key_dumps. now destruct dump.
  - rewrite andb_false_r. unfold key_dumps. rewrite List.filter_app.
    now rewrite (filter_host_details_none _ _
                   (log_not_host_detail "ssh-keyscan key dump")
                   (details_of_host_detail py scan_id p lines)).
Qed.
End Report.

(** ** What holds of the sink calls of every run *)

Lemma scan_line_every_call py scan_id target port P st line :
  covers_scan py scan_id target port P ->
  Forall P (trace (scan_line py scan_id port st line)).
Proof.
  intros (P_detail & _ & _).
  destruct st as [kd pe]. destruct line as [|c rest]; [constructor|].
  unfold scan_line. cbn [getitem0]. rewrite bind_ret_l.
  destruct (eq_char _ "#"); [constructor|].
  destruct (split (String c rest)) as [|x [|y [|z [|w l]]]] eqn:Hsplit;
    try (cbn; constructor).
  cbn. remember (format_d port) as m eqn:Hp. symmetry in Hp.
  destruct m as [t [p|e]]; pose proof (format_d_no_call _ _ _ Hp) as ->.
  - cbn. repeat constructor. eapply P_detail; [reflexivity|exact Hsplit].
  - constructor.
Qed.

Lemma for_each_every_call py scan_id target port P lines :
  covers_scan py scan_id target port P ->
  forall st, Forall P (trace (for_each (scan_line py scan_id port) lines st)).
Proof.
  intros HP.
  induction lines as [|line lines IH]; intros st; cbn [for_each].
  - constructor.
  - pose proof (scan_line_every_call py scan_id target port P st line HP)
      as H1.
    destruct (scan_line py scan_id port st line) as [t [st'|e]]; [|exact H1].
    specialize (IH st'). cbn [bind].
    destruct (for_each _ lines st') as [t' r]. cbn in *.
    apply Forall_app; split; assumption.
Qed.

(** Whatever covers the scan holds of every sink call of every run of
    [exec_scan]. *)
Lemma exec_scan_every_call py scan_id target P
    (self : OSPDsshkeyscan) (os : subprocess) :
  covers_scan py scan_id target
    (dict_get (get_scan_options self scan_id) "sshport") P ->
  Forall P (trace (exec_scan py self os scan_id target)).
Proof.
  intros HP. pose proof HP as (_ & P_log & P_error). unfold exec_scan.
  remember (dict_get (get_scan_options self scan_id) "sshport") as port.
  remember (format_d port) as m eqn:Hp. symmetry in Hp.
  destruct m as [t0 [p|e]]; pose proof (format_d_no_call _ _ _ Hp) as ->;
    [|constructor].
  rewrite bind_pure. unfold check_output.
  match goal with
  | |- context [match ?o ?argv with LaunchFailed => _ | Exited _ _ => _ end] =>
      destruct (o argv) as [|rc res]
  end; [constructor|].
  destruct (Z.eqb rc 0); [|constructor].
  rewrite bind_ret_l.
  destruct res as [out|]; [|cbn; repeat constructor; apply P_error].
  pose proof (for_each_every_call py scan_id target port P (splitlines out) HP
                ([], [])) as Ht.
  destruct (for_each (scan_line py scan_id port) (splitlines out) ([], []))
    as [t [[kd pe]|e]];
    cbn [bind trace fst] in *; [|exact Ht].
  cbn [format_d]. rewrite ?bind_ret_l, ?bind_pure, ?bind_ret_l.
  destruct py, pe as [|b bs], kd as [|k ks],
    (truthy (dict_get (get_scan_options self scan_id) "sshkeyaslog"));
    cbn [bind emit ret raise join app trace fst length Nat.ltb Nat.leb];
    (apply Forall_app; split; [exact Ht|]);
    repeat constructor; first [apply P_log | apply P_error].
Qed.

(** With the key dump switched off, no run of [exec_scan] reports one,
    however the run ends. *)
Lemma exec_scan_dump_off py (self : OSPDsshkeyscan) (os : subprocess)
    (scan_id target : string) :
  truthy (dict_get (get_scan_options self scan_id) "sshkeyaslog") = false ->
  key_dumps (trace (exec_scan py self os scan_id target)) = [].
Proof.
  intros Hoff. unfold exec_scan.
  remember (dict_get (get_scan_options self scan_id) "sshport") as port.
  remember (format_d port) as m eqn:Hp. symmetry in Hp.
  destruct m as [t0 [p|e]]; pose proof (format_d_no_call _ _ _ Hp) as ->;
    [|reflexivity].
  rewrite bind_pure. unfold check_output.
  match goal with
  | |- context [match ?o ?argv with LaunchFailed => _ | Exited _ _ => _ end] =>
      destruct (o argv) as [|rc res]
  end; [reflexivity|].
  destruct (Z.eqb rc 0); [|reflexivity].
  rewrite bind_ret_l. destruct res as [out|]; [|reflexivity].
  pose proof (for_each_trace py scan_id port (splitlines out) ([], [])) as Ht.
  destruct (for_each (scan_line py scan_id port) (splitlines out) ([], []))
    as [t [[kd pe]|e]];
    cbn [bind trace fst] in *;
    [|exact (filter_host_details_none _ _
               (log_not_host_detail "ssh-keyscan key dump") Ht)].
  cbn [format_d]. rewrite ?bind_ret_l, ?bind_pure, ?bind_ret_l, Hoff.
  destruct py, pe as [|b bs];
    cbn [bind emit ret raise join app trace fst length Nat.ltb Nat.leb];
    unfold key_dumps; rewrite List.filter_app;
    rewrite (filter_host_details_none _ _
               (log_not_host_detail "ssh-keyscan key dump") Ht);
    reflexivity.
Qed.

(** A scan with captured output ends in one of three ways: it returns 1
    when no line is empty and the joins succeed, it raises [TypeError] when
    no line is empty and a join fails, and it raises [IndexError] when a
    line is empty. *)
Lemma exec_scan_captured_outcome py (self : OSPDsshkeyscan) (os : subprocess)
    (scan_id target : string) (p : Z) (out : string) :
  get_scan_options self scan_id !! "sshport" = Some (PyInt p) ->
  os (keyscan_argv (str_of_Z p) target) = Exited 0 (Some out) ->
  (Forall nonblank (splitlines out)
   /\ result (exec_scan py self os scan_id target)
      = if joins_succeed py
             (truthy (dict_get (get_scan_options self scan_id) "sshkeyaslog"))
             (splitlines out)
        then Return 1%Z else Raise TypeError)
  \/ (In "" (splitlines out)
      /\ result (exec_scan py self os scan_id target) = Raise IndexError).
Proof.
  intros Hport Hos.
  destruct (first_blank (splitlines out)) as [Hall|(pre & post & Hsplit & Hpre)].
  - left. split; [exact Hall|].
    rewrite (exec_scan_captured py self os scan_id target p Hport out Hos Hall).
    unfold scan_report. now destruct (joins_succeed _ _ _).
  - right. split.
    + rewrite Hsplit. apply in_or_app. right. now left.
    + now rewrite (exec_scan_blank py self os scan_id target p Hport out
                     pre post Hos Hsplit Hpre).
Qed.

(** ** The availability check *)

(** C8: [check] returns false exactly when the executable cannot be launched,
    and returns true when it is launched and exits with a non-zero status;
    it never raises. *)
Theorem check_available (os : subprocess) :
  (check os = ret false <-> os ["ssh-keyscan"] = LaunchFailed)
  /\ (forall rc out,
        os ["ssh-keyscan"] = Exited rc out -> rc <> 0%Z -> check os = ret true)
  /\ (exists b, check os = ret b).
Proof.
  unfold check, check_output.
  destruct (os ["ssh-keyscan"]) as [|rc out] eqn:Hos.
  - cbn. repeat split; try discriminate; eauto.
  - destruct (Z.eqb rc 0); cbn;
      (split; [split; discriminate|split; [intros ? ? _ _; reflexivity|eauto]]).
Qed.

Lemma check_available_witness :
  check (tool (Exited 1 (Some "usage: ssh-keyscan"))) = ret true.
Proof.
  apply (proj1 (proj2 (check_available (tool (Exited 1 (Some "usage: ssh-keyscan")))))
           1%Z (Some "usage: ssh-keyscan")); [reflexivity|lia].
Defined.

(** ** The scan *)

(** C9: when the captured output is [None], [exec_scan] reports exactly two
    error entries for the target, the generic one and the one saying that the
    result was empty, and returns the failure code 2; no line is processed
    and nothing else is reported.  This holds on either interpreter. *)
Theorem exec_scan_null_output (py : python) (self : OSPDsshkeyscan)
    (os : subprocess) (scan_id target : string) (p : Z) :
  get_scan_options self scan_id !! "sshport" = Some (PyInt p) ->
  os (keyscan_argv (str_of_Z p) target) = Exited 0 None ->
  exec_scan py self os scan_id target
  = ([add_scan_error scan_id target
        "A problem occurred trying to execute 'ssh-keyscan'.";
      add_scan_error scan_id target
        "The result of 'ssh-keyscan' was empty."],
     Return 2%Z).
Proof.
  intros Hport Hos.
  exact (exec_scan_returned py self os scan_id target p Hport None Hos).
Qed.

Lemma exec_scan_null_output_witness :
  exec_scan Py3 (daemon (PyInt 22) (PyInt 0)) (tool (Exited 0 None))
    "scan-1" "host1"
  = ([add_scan_error "scan-1" "host1"
        "A problem occurred trying to execute 'ssh-keyscan'.";
      add_scan_error "scan-1" "host1"
        "The result of 'ssh-keyscan' was empty."],
     Return 2%Z).
Proof.
  apply (exec_scan_null_output Py3 (daemon (PyInt 22) (PyInt 0))
           (tool (Exited 0 None)) "scan-1" "host1" 22); reflexivity.
Defined.

(** With an integer port and no empty line in the captured output, line
    processing is total on either interpreter: the first item of every line
    exists and the loop ends without an exception.  What follows the loop
    returns 1 when the joins succeed, as they always do on Python 2. *)
Lemma loop_total (py : python) (self : OSPDsshkeyscan) (os : subprocess)
    (scan_id target : string) (p : Z) (out : string) :
  get_scan_options self scan_id !! "sshport" = Some (PyInt p) ->
  os (keyscan_argv (str_of_Z p) target) = Exited 0 (Some out) ->
  Forall nonblank (splitlines out) ->
  (forall line, In line (splitlines out) -> exists c, getitem0 py line = ret c)
  /\ (exists st,
        result (for_each (scan_line py scan_id (PyInt p)) (splitlines out)
                  ([], []))
        = Return st)
  /\ result (exec_scan py self os scan_id target)
     = if joins_succeed py
          (truthy (dict_get (get_scan_options self scan_id) "sshkeyaslog"))
          (splitlines out)
       then Return 1%Z else Raise TypeError.
Proof.
  intros Hport Hos Hall. split; [|split].
  - intros line Hin. rewrite List.Forall_forall in Hall.
    specialize (Hall line Hin). destruct line as [|c rest]; [now elim Hall|].
    cbn. eauto.
  - rewrite (for_each_nonblank py scan_id (PyInt p) (str_of_Z p) _ Hall
               eq_refl).
    cbn. eauto.
  - rewrite (exec_scan_captured py self os scan_id target p Hport out Hos Hall).
    unfold scan_report. now destruct (joins_succeed _ _ _).
Qed.

(** C10: with an integer port and no empty line, [exec_scan] still does not
    return 1 on Python 3 once a line is malformed: for the output of a
    banner line, a key line and a malformed line the loop ends without a
    fault and the summary is reported, and then the join of the malformed
    lines, which are [bytes], raises [TypeError]. *)
Theorem bytes_lines_join_raises :
  Forall nonblank
    (splitlines ("# host1:22 SSH-2.0-OpenSSH_8.9" +:+ NL
                   +:+ "host1 ssh-rsa AAAA" +:+ NL +:+ "badline" +:+ NL))
  /\ exec_scan Py3 (daemon (PyInt 22) (PyInt 0))
       (tool (Exited 0 (Some ("# host1:22 SSH-2.0-OpenSSH_8.9" +:+ NL
                                +:+ "host1 ssh-rsa AAAA" +:+ NL
                                +:+ "badline" +:+ NL))))
       "scan-1" "host1"
     = ([add_scan_host_detail "scan-1" (Bytes "#") "ssh-key"
           "22 b'host1:22' b'SSH-2.0-OpenSSH_8.9'";
         add_scan_host_detail "scan-1" (Bytes "host1") "ssh-key"
           "22 b'ssh-rsa' b'AAAA'";
         summary_entry "scan-1" "host1" "22" 2],
        Raise TypeError).
Proof.
  split; [vm_compute; repeat constructor; discriminate|].
  vm_compute. reflexivity.
Qed.

(** On Python 2 a line whose first character is [#] is skipped entirely:
    the scan of an output with such a line makes the same sink calls, with
    the same values, and ends the same way as the scan of the output without
    that line. *)
Lemma comment_line_skipped_text (self : OSPDsshkeyscan) (os os' : subprocess)
    (scan_id target : string) (p : Z) (out out' : string)
    (pre post : list string) (rest : string) :
  get_scan_options self scan_id !! "sshport" = Some (PyInt p) ->
  os (keyscan_argv (str_of_Z p) target) = Exited 0 (Some out) ->
  os' (keyscan_argv (str_of_Z p) target) = Exited 0 (Some out') ->
  splitlines out = pre ++ String "#" rest :: post ->
  splitlines out' = pre ++ post ->
  exec_scan Py2 self os scan_id target = exec_scan Py2 self os' scan_id target.
Proof.
  intros Hport Hos Hos' Hout Hout'.
  rewrite (exec_scan_returned Py2 self os scan_id target p Hport (Some out) Hos).
  rewrite (exec_scan_returned Py2 self os' scan_id target p Hport (Some out')
             Hos').
  rewrite Hout, Hout'. f_equal.
  rewrite !for_each_app. apply bind_ext. intros st.
  cbn [for_each]. now rewrite scan_line_comment, bind_ret_l.
Qed.

(** C6: on Python 3 a line whose first character is [#] is not skipped.
    The first item of a [bytes] line is an integer, which is never equal to
    ['#']: the banner line of ssh-keyscan, which has three fields, gets a
    host detail for the host [#] and counts in the summary, so the scan
    differs from the scan of the output without that line. *)
Theorem hash_line_not_skipped_on_bytes :
  exec_scan Py3 (daemon (PyInt 22) (PyInt 0))
    (tool (Exited 0 (Some ("# host1:22 SSH-2.0-OpenSSH_8.9" +:+ NL
                             +:+ "host1 ssh-rsa AAAA" +:+ NL))))
    "scan-1" "host1"
  = ([add_scan_host_detail "scan-1" (Bytes "#") "ssh-key"
        "22 b'host1:22' b'SSH-2.0-OpenSSH_8.9'";
      add_scan_host_detail "scan-1" (Bytes "host1") "ssh-key"
        "22 b'ssh-rsa' b'AAAA'";
      summary_entry "scan-1" "host1" "22" 2],
     Return 1%Z)
  /\ exec_scan Py3 (daemon (PyInt 22) (PyInt 0))
       (tool (Exited 0 (Some ("host1 ssh-rsa AAAA" +:+ NL))))
       "scan-1" "host1"
     = ([add_scan_host_detail "scan-1" (Bytes "host1") "ssh-key"
           "22 b'ssh-rsa' b'AAAA'";
         summary_entry "scan-1" "host1" "22" 1],
        Return 1%Z).
Proof. split; vm_compute; reflexivity. Qed.

(** On output without an empty line the summary entry is reported exactly
    once, for the target, after the host details, with the number of key
    lines and the port; an output without any key line gives the count 0. *)
Lemma exec_scan_summary_without_blank py (self : OSPDsshkeyscan)
    (os : subprocess) (scan_id target : string) (p : Z) (out : string) :
  get_scan_options self scan_id !! "sshport" = Some (PyInt p) ->
  os (keyscan_argv (str_of_Z p) target) = Exited 0 (Some out) ->
  Forall nonblank (splitlines out) ->
  summaries (trace (exec_scan py self os scan_id target))
  = [summary_entry scan_id target (str_of_Z p)
       (length (key_lines py (splitlines out)))]
  /\ exists after,
      trace (exec_scan py self os scan_id target)
      = flat_map (details_of py scan_id (str_of_Z p)) (splitlines out)
          ++ summary_entry scan_id target (str_of_Z p)
               (length (key_lines py (splitlines out))) :: after.
Proof.
  intros Hport Hos Hall.
  rewrite (exec_scan_captured py self os scan_id target p Hport out Hos Hall).
  split; [apply scan_report_summaries|].
  unfold scan_report, full_trace.
  destruct (joins_succeed _ _ _); cbn [trace fst]; eexists; reflexivity.
Qed.

(** On Python 2, on output without an empty line, the malformed lines are
    reported in one error entry for the target, joined by newlines in their
    order, and there is no error entry when there is no malformed line. *)
Lemma exec_scan_errors_without_blank (self : OSPDsshkeyscan) (os : subprocess)
    (scan_id target : string) (p : Z) (out : string) :
  get_scan_options self scan_id !! "sshport" = Some (PyInt p) ->
  os (keyscan_argv (str_of_Z p) target) = Exited 0 (Some out) ->
  Forall nonblank (splitlines out) ->
  errors (trace (exec_scan Py2 self os scan_id target))
  = match error_lines Py2 (splitlines out) with
    | [] => []
    | bad => [parse_error_entry scan_id target bad]
    end.
Proof.
  intros Hport Hos Hall.
  rewrite (exec_scan_captured Py2 self os scan_id target p Hport out Hos Hall).
  unfold scan_report. cbn [joins_succeed trace fst].
  rewrite full_trace_errors.
  now destruct (error_lines Py2 (splitlines out)).
Qed.

(** ** Empty lines *)

(** C1: the summary entry is missing when the output has an empty line.  For
    the output of one key line and one empty line, [exec_scan] reports the
    host detail of the key and then stops with [IndexError]: no summary
    entry, in fact no log entry at all, reaches the sink.  This is so on
    either interpreter. *)
Theorem blank_line_loses_summary (py : python) :
  exec_scan py (daemon (PyInt 22) (PyInt 0))
    (tool (Exited 0 (Some ("host1 ssh-rsa AAAA" +:+ NL +:+ NL))))
    "scan-1" "host1"
  = ([key_detail py "scan-1" "22" "host1" "ssh-rsa" "AAAA"], Raise IndexError)
  /\ summaries
       (trace (exec_scan py (daemon (PyInt 22) (PyInt 0))
                 (tool (Exited 0 (Some ("host1 ssh-rsa AAAA" +:+ NL +:+ NL))))
                 "scan-1" "host1"))
     = [].
Proof. destruct py; split; vm_compute; reflexivity. Qed.

(** C3: an empty line is a line that is no comment and has no three fields,
    yet it is not collected as a parse error.  For the output of a malformed
    line, an empty line and a key line, [exec_scan] stops with [IndexError]
    at the empty line: the key line after it is not processed and the error
    entry for the malformed lines is not reported.  This is so on either
    interpreter. *)
Theorem blank_line_loses_parse_errors (py : python) :
  splitlines ("badline" +:+ NL +:+ NL +:+ "host1 ssh-rsa AAAA" +:+ NL)
  = ["badline"; ""; "host1 ssh-rsa AAAA"]
  /\ is_error_line py "" = true
  /\ exec_scan py (daemon (PyInt 22) (PyInt 0))
       (tool (Exited 0 (Some ("badline" +:+ NL +:+ NL
                                +:+ "host1 ssh-rsa AAAA" +:+ NL))))
       "scan-1" "host1"
     = ([], Raise IndexError).
Proof. destruct py; repeat split; vm_compute; reflexivity. Qed.

(** C5: exceptions do leave [exec_scan], on either interpreter.  An output
    that is one empty line ends the scan with [IndexError]: nothing is
    reported and no exit code is returned.  The exceptions of the process
    call leave it as well: [OSError] when the tool cannot be launched,
    [CalledProcessError] when it exits with a non-zero status; and
    [TypeError] when [sshport] is not a number. *)
Theorem blank_line_raises (py : python) :
  exec_scan py (daemon (PyInt 22) (PyInt 0)) (tool (Exited 0 (Some NL)))
    "scan-1" "host1"
  = ([], Raise IndexError)
  /\ exec_scan py (daemon (PyInt 22) (PyInt 0)) (tool LaunchFailed)
       "scan-1" "host1"
     = ([], Raise OSError)
  /\ exec_scan py (daemon (PyInt 22) (PyInt 0))
       (tool (Exited 1 (Some ("host1 ssh-rsa AAAA" +:+ NL))))
       "scan-1" "host1"
     = ([], Raise (CalledProcessError 1 (Some ("host1 ssh-rsa AAAA" +:+ NL))))
  /\ exec_scan py (daemon PyNone (PyInt 0))
       (tool (Exited 0 (Some ("host1 ssh-rsa AAAA" +:+ NL))))
       "scan-1" "host1"
     = ([], Raise TypeError).
Proof. destruct py; repeat split; vm_compute; reflexivity. Qed.

(** ** Key lines *)




(** ** The exit status of the tool *)

(** C4, as stated, fails on either interpreter: with the same output, a tool
    that exits with status 1 gives a run that differs from the run of a tool
    that exits with status 0; nothing of the output is parsed or reported. *)
Lemma nonzero_exit_not_parsed :
  exec_scan Py2 (daemon (PyInt 22) (PyInt 0))
    (tool (Exited 1 (Some ("host1 ssh-rsa AAAA" +:+ NL))))
    "scan-1" "host1"
  = ([], Raise (CalledProcessError 1 (Some ("host1 ssh-rsa AAAA" +:+ NL))))
  /\ exec_scan Py2 (daemon (PyInt 22) (PyInt 0))
       (tool (Exited 0 (Some ("host1 ssh-rsa AAAA" +:+ NL))))
       "scan-1" "host1"
     = ([key_detail Py2 "scan-1" "22" "host1" "ssh-rsa" "AAAA";
         summary_entry "scan-1" "host1" "22" 1], Return 1%Z)
  /\ exec_scan Py3 (daemon (PyInt 22) (PyInt 0))
       (tool (Exited 1 (Some ("host1 ssh-rsa AAAA" +:+ NL))))
       "scan-1" "host1"
     = ([], Raise (CalledProcessError 1 (Some ("host1 ssh-rsa AAAA" +:+ NL))))
  /\ exec_scan Py3 (daemon (PyInt 22) (PyInt 0))
       (tool (Exited 0 (Some ("host1 ssh-rsa AAAA" +:+ NL))))
       "scan-1" "host1"
     = ([key_detail Py3 "scan-1" "22" "host1" "ssh-rsa" "AAAA";
         summary_entry "scan-1" "host1" "22" 1], Return 1%Z).
Proof. repeat split; vm_compute; reflexivity. Qed.

(** C4, amended: the exit status is checked on the scan path, by
    [check_output].  When the tool exits with a non-zero status, the captured
    output is not parsed and nothing is reported: the call raises
    [CalledProcessError] with the status and the output, and [exec_scan] does
    not handle it.  This holds on either interpreter. *)
Theorem exec_scan_exit_status (py : python) (self : OSPDsshkeyscan)
    (os : subprocess) (scan_id target : string) (p rc : Z)
    (out : option string) :
  get_scan_options self scan_id !! "sshport" = Some (PyInt p) ->
  os (keyscan_argv (str_of_Z p) target) = Exited rc out ->
  rc <> 0%Z ->
  exec_scan py self os scan_id target = ([], Raise (CalledProcessError rc out)).
Proof.
  intros Hport Hos Hrc. unfold exec_scan, dict_get. rewrite Hport.
  cbn [from_option id format_d]. rewrite bind_ret_l.
  unfold check_output. unfold keyscan_argv in Hos. rewrite Hos.
  apply Z.eqb_neq in Hrc. now rewrite Hrc.
Qed.

Lemma exec_scan_exit_status_witness :
  exec_scan Py3 (daemon (PyInt 22) (PyInt 0))
    (tool (Exited 255 (Some ("host1 ssh-rsa AAAA" +:+ NL))))
    "scan-1" "host1"
  = ([], Raise (CalledProcessError 255 (Some ("host1 ssh-rsa AAAA" +:+ NL)))).
Proof.
  apply (exec_scan_exit_status Py3 (daemon (PyInt 22) (PyInt 0))
           (tool (Exited 255 (Some ("host1 ssh-rsa AAAA" +:+ NL))))
           "scan-1" "host1" 22 255 (Some ("host1 ssh-rsa AAAA" +:+ NL)));
    [reflexivity|reflexivity|lia].
Defined.

(** The tool exits with a non-zero status: nothing is reported. *)
Lemma exec_scan_exit_status_trace (py : python) (self : OSPDsshkeyscan)
    (os : subprocess) (scan_id target : string) (p rc : Z)
    (out : option string) :
  get_scan_options self scan_id !! "sshport" = Some (PyInt p) ->
  os (keyscan_argv (str_of_Z p) target) = Exited rc out ->
  rc <> 0%Z ->
  trace (exec_scan py self os scan_id target) = [].
Proof.
  intros Hport Hos Hrc. unfold exec_scan, dict_get. rewrite Hport.
  cbn [from_option id format_d]. rewrite bind_ret_l.
  unfold check_output. unfold keyscan_argv in Hos. rewrite Hos.
  apply Z.eqb_neq in Hrc. now rewrite Hrc.
Qed.

(** ** The key dump *)

(** C7, as stated, fails in the direction from the option to the entry, on
    either interpreter: with [sshkeyaslog] true, a scan whose tool exits with
    the status 1 reports nothing, and so no key dump. *)
Lemma dump_option_without_dump :
  truthy (dict_get (get_scan_options (daemon (PyInt 22) (PyBool true)) "scan-1")
            "sshkeyaslog") = true
  /\ exec_scan Py2 (daemon (PyInt 22) (PyBool true))
       (tool (Exited 1 (Some ("host1 ssh-rsa AAAA" +:+ NL))))
       "scan-1" "host1"
     = ([], Raise (CalledProcessError 1 (Some ("host1 ssh-rsa AAAA" +:+ NL))))
  /\ exec_scan Py3 (daemon (PyInt 22) (PyBool true))
       (tool (Exited 1 (Some ("host1 ssh-rsa AAAA" +:+ NL))))
       "scan-1" "host1"
     = ([], Raise (CalledProcessError 1 (Some ("host1 ssh-rsa AAAA" +:+ NL))))
  /\ key_dumps
       (trace (exec_scan Py2 (daemon (PyInt 22) (PyBool true))
                 (tool (Exited 1 (Some ("host1 ssh-rsa AAAA" +:+ NL))))
                 "scan-1" "host1")) = []
  /\ key_dumps
       (trace (exec_scan Py3 (daemon (PyInt 22) (PyBool true))
                 (tool (Exited 1 (Some ("host1 ssh-rsa AAAA" +:+ NL))))
                 "scan-1" "host1")) = [].
Proof. repeat split; vm_compute; reflexivity. Qed.

(** C7, amended: when [sshkeyaslog] is false no run of [exec_scan] reports a
    key dump, however many keys were found and however the run ends; when
    the tool exits with a non-zero status no key dump is reported either,
    whatever the option; and in every run that returns the success code 1
    the key dump is reported if and only if [sshkeyaslog] is true: then
    there is exactly one such entry, for the target, holding the key lines
    joined by newlines in their order in the output.  This holds on either
    interpreter. *)
Theorem key_dump_by_option (py : python) (self : OSPDsshkeyscan)
    (os : subprocess) (scan_id target : string) :
  (truthy (dict_get (get_scan_options self scan_id) "sshkeyaslog") = false ->
   key_dumps (trace (exec_scan py self os scan_id target)) = [])
  /\ (forall (p rc : Z) (out : option string),
        get_scan_options self scan_id !! "sshport" = Some (PyInt p) ->
        os (keyscan_argv (str_of_Z p) target) = Exited rc out ->
        rc <> 0%Z ->
        key_dumps (trace (exec_scan py self os scan_id target)) = [])
  /\ (forall (p : Z) (out : string),
        get_scan_options self scan_id !! "sshport" = Some (PyInt p) ->
        os (keyscan_argv (str_of_Z p) target) = Exited 0 (Some out) ->
        result (exec_scan py self os scan_id target) = Return 1%Z ->
        key_dumps (trace (exec_scan py self os scan_id target))
        = if truthy (dict_get (get_scan_options self scan_id) "sshkeyaslog")
          then [add_scan_log scan_id target "ssh-keyscan key dump"
                  ("Via ssh-keyscan found keys:" +:+ NL +:+ NL
                     +:+ String.concat NL
                           (List.filter (is_key_line py) (splitlines out)))]
          else []).
Proof.
  split; [apply exec_scan_dump_off|]. split.
  - intros p rc out Hport Hos Hrc.
    now rewrite (exec_scan_exit_status_trace py self os scan_id target p rc out
                   Hport Hos Hrc).
  - intros p out Hport Hos Hret.
    destruct (exec_scan_captured_outcome py self os scan_id target p out
                Hport Hos) as [[Hall Hres]|[_ Hres]];
      [|rewrite Hres in Hret; discriminate].
    rewrite Hres in Hret.
    rewrite (exec_scan_captured py self os scan_id target p Hport out Hos Hall).
    rewrite scan_report_key_dumps.
    destruct (joins_succeed _ _ _); [|discriminate].
    now destruct (truthy _).
Qed.

Lemma key_dump_by_option_witness :
  key_dumps
    (trace (exec_scan Py2 (daemon (PyInt 22) (PyBool true))
              (tool (Exited 0 (Some ("host1 ssh-rsa AAAA" +:+ NL
                                       +:+ "badline" +:+ NL
                                       +:+ "host1 ssh-ed25519 BBBB" +:+ NL))))
              "scan-1" "host1"))
  = [add_scan_log "scan-1" "host1" "ssh-keyscan key dump"
       ("Via ssh-keyscan found keys:" +:+ NL +:+ NL
          +:+ "host1 ssh-rsa AAAA" +:+ NL +:+ "host1 ssh-ed25519 BBBB")]
  /\ key_dumps
       (trace (exec_scan Py3 (daemon (PyInt 22) (PyInt 0))
                 (tool (Exited 0 (Some ("host1 ssh-rsa AAAA" +:+ NL))))
                 "scan-1" "host1"))
     = []
  /\ key_dumps
       (trace (exec_scan Py3 (daemon (PyInt 22) (PyBool true))
                 (tool (Exited 3 (Some ("host1 ssh-rsa AAAA" +:+ NL))))
                 "scan-1" "host1"))
     = [].
Proof.
  split; [|split].
  - apply (proj2 (proj2 (key_dump_by_option Py2 (daemon (PyInt 22) (PyBool true))
                    (tool (Exited 0 (Some ("host1 ssh-rsa AAAA" +:+ NL
                                             +:+ "badline" +:+ NL
                                             +:+ "host1 ssh-ed25519 BBBB" +:+ NL))))
                    "scan-1" "host1"))
             22 ("host1 ssh-rsa AAAA" +:+ NL +:+ "badline" +:+ NL
                   +:+ "host1 ssh-ed25519 BBBB" +:+ NL));
      reflexivity.
  - apply (proj1 (key_dump_by_option Py3 (daemon (PyInt 22) (PyInt 0))
                    (tool (Exited 0 (Some ("host1 ssh-rsa AAAA" +:+ NL))))
                    "scan-1" "host1")).
    reflexivity.
  - apply (proj1 (proj2 (key_dump_by_option Py3 (daemon (PyInt 22) (PyBool true))
                    (tool (Exited 3 (Some ("host1 ssh-rsa AAAA" +:+ NL))))
                    "scan-1" "host1"))
             22 3 (Some ("host1 ssh-rsa AAAA" +:+ NL)));
      [reflexivity|reflexivity|lia].
Defined.

(** ** Every call of every run *)

(** X1: every sink call of every run of [exec_scan], whether the run returns
    or raises, is made for the scan [scan_id] it was started for. *)
Theorem every_call_for_the_scan (py : python) (self : OSPDsshkeyscan)
    (os : subprocess) (scan_id target : string) :
  Forall (fun c => scan_id_of c = scan_id)
    (trace (exec_scan py self os scan_id target)).
Proof. apply (exec_scan_every_call py scan_id target); repeat split. Qed.

(** X2: in every run of [exec_scan], every log entry and every error entry
    is attributed to the target, and every host detail has the name
    [ssh-key]; only host details can name another host. *)
Theorem every_call_attributed (py : python) (self : OSPDsshkeyscan)
    (os : subprocess) (scan_id target : string) :
  Forall (fun c => match c with
                   | add_scan_host_detail _ _ name _ => name = "ssh-key"
                   | add_scan_log _ host _ _ => host = target
                   | add_scan_error _ host _ => host = target
                   end)
    (trace (exec_scan py self os scan_id target)).
Proof. apply (exec_scan_every_call py scan_id target); repeat split. Qed.

(** ** Strings: words and lines *)

Lemma append_cons (x : ascii) (a b : string) :
  String x a +:+ b = String x (a +:+ b).
Proof. reflexivity. Qed.

Lemma append_nil_l (b : string) : "" +:+ b = b.
Proof. reflexivity. Qed.

Lemma append_assoc (a b c : string) : (a +:+ b) +:+ c = a +:+ (b +:+ c).
Proof.
  induction a as [|x a IH]; [reflexivity|].
  now rewrite !append_cons, IH.
Qed.

Lemma append_nil_r (a : string) : a +:+ "" = a.
Proof.
  induction a as [|x a IH]; [reflexivity|]. now rewrite append_cons, IH.
Qed.

Lemma append_snoc (a : string) (c : ascii) (b : string) :
  (a +:+ String c "") +:+ b = a +:+ String c b.
Proof. now rewrite append_assoc. Qed.

Lemma forall_chars_app (f : ascii -> bool) (a b : string) :
  forall_chars f (a +:+ b) = forall_chars f a && forall_chars f b.
Proof.
  induction a as [|x a IH]; [reflexivity|].
  rewrite append_cons. cbn [forall_chars]. now rewrite IH, andb_assoc.
Qed.

Lemma eqb_nil_false (w : string) : w <> "" -> String.eqb w "" = false.
Proof. intros H. now apply String.eqb_neq. Qed.

Lemma is_word_spec (w : string) :
  is_word w = true <-> w <> "" /\ no_space w = true.
Proof.
  unfold is_word. rewrite andb_true_iff, negb_true_iff, String.eqb_neq.
  reflexivity.
Qed.

(** [split] reads a word in one go. *)
Lemma split_from_word (w : string) :
  no_space w = true ->
  forall cur s, split_from cur (w +:+ s) = split_from (cur +:+ w) s.
Proof.
  induction w as [|c w IH]; intros Hw cur s.
  - now rewrite append_nil_l, append_nil_r.
  - unfold no_space in Hw. cbn [forall_chars] in Hw.
    apply andb_true_iff in Hw as [Hc Hw]. apply negb_true_iff in Hc.
    rewrite append_cons. cbn [split_from]. rewrite Hc.
    rewrite (IH Hw). now rewrite append_snoc.
Qed.

Lemma split_from_space (cur s : string) (c : ascii) :
  cur <> "" -> isspace c = true ->
  split_from cur (String c s) = cur :: split_from "" s.
Proof.
  intros Hcur Hc. cbn [split_from]. now rewrite Hc, (eqb_nil_false cur Hcur).
Qed.

(** The items of [split] are words. *)
Lemma split_from_words (s : string) :
  forall cur, no_space cur = true ->
    Forall (fun w => is_word w = true) (split_from cur s).
Proof.
  induction s as [|c s IH]; intros cur Hcur; cbn [split_from].
  - destruct (String.eqb cur "") eqn:E; constructor; [|constructor].
    apply is_word_spec. split; [now apply String.eqb_neq|exact Hcur].
  - destruct (isspace c) eqn:Hc.
    + destruct (String.eqb cur "") eqn:E; [now apply IH|].
      constructor; [|now apply IH].
      apply is_word_spec. split; [now apply String.eqb_neq|exact Hcur].
    + apply IH. unfold no_space in *. rewrite forall_chars_app, Hcur.
      cbn. now rewrite Hc.
Qed.

Lemma split_words (s : string) : Forall (fun w => is_word w = true) (split s).
Proof. now apply split_from_words. Qed.

(** Three words joined by single spaces split into these words. *)
Lemma split_three_words (a b c : string) :
  is_word a = true -> is_word b = true -> is_word c = true ->
  split (a +:+ " " +:+ b +:+ " " +:+ c) = [a; b; c].
Proof.
  intros [Ha Ha']%is_word_spec [Hb Hb']%is_word_spec [Hc Hc']%is_word_spec.
  unfold split. rewrite (split_from_word a Ha'), append_nil_l.
  rewrite append_cons, append_nil_l.
  rewrite (split_from_space a _ " "%char Ha eq_refl).
  rewrite (split_from_word b Hb'), append_nil_l.
  rewrite append_cons, append_nil_l.
  rewrite (split_from_space b _ " "%char Hb eq_refl).
  rewrite <- (append_nil_r c) at 1.
  rewrite (split_from_word c Hc'), append_nil_l.
  cbn [split_from]. now rewrite (eqb_nil_false c Hc).
Qed.

(** The decimal notation of an integer is a word. *)
Lemma string_of_uint_no_space (d : Decimal.uint) :
  no_space (NilEmpty.string_of_uint d) = true.
Proof. induction d; cbn; auto. Qed.

Lemma str_of_Z_word (z : Z) : is_word (str_of_Z z) = true.
Proof.
  unfold str_of_Z, NilZero.string_of_int, NilZero.string_of_uint.
  apply is_word_spec.
  destruct (Z.to_int z) as [d|d]; destruct d; cbn;
    (split; [discriminate|]); try reflexivity;
    apply string_of_uint_no_space.
Qed.

(** The [repr] of a word is a word. *)
Lemma escape_byte_no_space (quote c : ascii) :
  isspace c = false -> no_space (escape_byte quote c) = true.
Proof.
  intros Hc. unfold escape_byte.
  destruct (Ascii.eqb c quote || Ascii.eqb c BACKSLASH)%bool.
  - unfold no_space. cbn. now rewrite Hc.
  - clear quote.
    destruct c as [[] [] [] [] [] [] [] []]; vm_compute in Hc |- *;
      congruence.
Qed.

Lemma escape_bytes_no_space (quote : ascii) (w : string) :
  no_space w = true -> no_space (escape_bytes quote w) = true.
Proof.
  induction w as [|c w IH]; [reflexivity|].
  unfold no_space in *. cbn [forall_chars escape_bytes].
  intros [Hc Hw]%andb_true_iff. apply negb_true_iff in Hc.
  rewrite forall_chars_app. apply andb_true_iff. split.
  - now apply escape_byte_no_space.
  - now apply IH.
Qed.

Lemma format_s_word (py : python) (w : string) :
  is_word w = true -> is_word (format_s py w) = true.
Proof.
  destruct py; [trivial|]. intros [_ Hw]%is_word_spec.
  apply is_word_spec. split; [discriminate|].
  unfold format_s, bytes_repr, no_space. cbn [forall_chars].
  assert (Hq : isspace (repr_quote w) = false).
  { unfold repr_quote.
    now destruct (contains SQUOTE w && negb (contains DQUOTE w))%bool. }
  rewrite Hq, forall_chars_app. cbn [forall_chars negb andb].
  rewrite Hq. cbn [negb andb].
  fold (no_space (escape_bytes (repr_quote w) w)).
  rewrite (escape_bytes_no_space _ _ Hw). reflexivity.
Qed.


(** ** The fields of a key *)

Lemma three_fields_words (line host keytype key : string) :
  split line = [host; keytype; key] ->
  is_word host = true /\ is_word keytype = true /\ is_word key = true.
Proof.
  intros Hsplit. pose proof (split_words line) as H. rewrite Hsplit in H.
  inversion H as [|? ? H1 H']; subst. inversion H' as [|? ? H2 H'']; subst.
  inversion H'' as [|? ? H3 _]; subst. auto.
Qed.

(** X3: the value of every host detail of every run of [exec_scan] splits
    back, at white space, into exactly three fields: the port in decimal
    notation, the key type and the key; and the host it is attributed to is
    a word, not empty and without white space. *)
Theorem host_detail_splits_back (py : python) (self : OSPDsshkeyscan)
    (os : subprocess) (scan_id target : string) (p : Z) :
  get_scan_options self scan_id !! "sshport" = Some (PyInt p) ->
  Forall (fun c => match c with
                   | add_scan_host_detail _ host _ value =>
                       is_word (content host) = true
                       /\ exists keytype key,
                           split value = [str_of_Z p; keytype; key]
                   | _ => True
                   end)
    (trace (exec_scan py self os scan_id target)).
Proof.
  intros Hport. apply (exec_scan_every_call py scan_id target).
  unfold dict_get. rewrite Hport. cbn [from_option id].
  split; [|split; intros; exact I].
  intros line p0 host keytype key Hfmt Hsplit.
  cbn [format_d] in Hfmt. unfold ret in Hfmt. injection Hfmt as <-.
  destruct (three_fields_words _ _ _ _ Hsplit) as (Hh & Ht & Hk).
  unfold key_detail. split; [now destruct py|].
  exists (format_s py keytype), (format_s py key).
  apply split_three_words;
    [apply str_of_Z_word|now apply format_s_word|now apply format_s_word].
Qed.

Lemma host_detail_splits_back_witness :
  Forall (fun c => match c with
                   | add_scan_host_detail _ host _ value =>
                       is_word (content host) = true
                       /\ exists keytype key,
                           split value = [str_of_Z 2222; keytype; key]
                   | _ => True
                   end)
    (trace (exec_scan Py3 (daemon (PyInt 2222) (PyInt 1))
              (tool (Exited 0 (Some ("  host1   ssh-rsa  AAAA  " +:+ NL))))
              "scan-1" "192.0.2.7")).
Proof.
  apply (host_detail_splits_back Py3 (daemon (PyInt 2222) (PyInt 1))
           (tool (Exited 0 (Some ("  host1   ssh-rsa  AAAA  " +:+ NL))))
           "scan-1" "192.0.2.7" 2222).
  reflexivity.
Defined.

Lemma split_from_all_space (s : string) :
  all_space s = true -> split_from "" s = [].
Proof.
  induction s as [|c s IH]; [reflexivity|].
  unfold all_space. cbn [forall_chars split_from].
  intros [Hc Hs]%andb_true_iff. rewrite Hc. cbn. now apply IH.
Qed.

(** X4: a line that is not empty and holds white space only is collected as
    a parse error: the turn of the loop makes no sink call and raises
    nothing, whatever [sshport] is, and appends the line to [parse_errors]. *)
Theorem blank_filled_line_is_parse_error (py : python) (scan_id : string)
    (port : pyval) (key_data parse_errors : list string) (line : string) :
  line <> "" ->
  all_space line = true ->
  scan_line py scan_id port (key_data, parse_errors) line
  = ret (key_data, parse_errors ++ [line]).
Proof.
  intros Hne Hsp. destruct line as [|c rest]; [congruence|].
  unfold scan_line. cbn [getitem0]. rewrite bind_ret_l.
  assert (eq_char (match py with
                   | Py2 => OneChar c
                   | Py3 => IntItem (nat_of_ascii c)
                   end) "#" = false) as ->.
  { destruct py; [|reflexivity]. cbn [eq_char].
    unfold all_space in Hsp. cbn [forall_chars] in Hsp.
    apply andb_true_iff in Hsp as [Hc _].
    destruct (Ascii.eqb_spec c "#") as [->|]; [discriminate Hc|reflexivity]. }
  unfold split. now rewrite (split_from_all_space _ Hsp).
Qed.

Lemma blank_filled_line_is_parse_error_witness :
  scan_line Py3 "scan-1" PyNone (["host1 ssh-rsa AAAA"], []) "   "
  = ret (["host1 ssh-rsa AAAA"], ["   "]).
Proof.
  apply (blank_filled_line_is_parse_error Py3 "scan-1" PyNone
           ["host1 ssh-rsa AAAA"] [] "   "); [discriminate|reflexivity].
Defined.

(** ** Lines *)

Lemma single_line_cons (c : ascii) (w : string) :
  single_line (String c w) = true ->
  Ascii.eqb c LF = false /\ Ascii.eqb c CR = false /\ single_line w = true.
Proof.
  unfold single_line, is_terminator. cbn [forall_chars].
  intros [Hc Hw]%andb_true_iff.
  apply negb_true_iff, orb_false_iff in Hc as [H1 H2]. auto.
Qed.

(** [splitlines] reads a string without terminator in one go. *)
Lemma splitlines_from_line (w : string) :
  single_line w = true ->
  forall cur s, splitlines_from cur (w +:+ s) = splitlines_from (cur +:+ w) s.
Proof.
  induction w as [|c w IH]; intros Hw cur s.
  - now rewrite append_nil_l, append_nil_r.
  - apply single_line_cons in Hw as (H1 & H2 & Hw).
    rewrite append_cons. cbn [splitlines_from]. rewrite H1, H2.
    rewrite (IH Hw). now rewrite append_snoc.
Qed.

(** The lines of [splitlines] hold no terminator. *)
Lemma splitlines_from_single_line (s : string) :
  (forall cur, single_line cur = true ->
     Forall (fun l => single_line l = true) (splitlines_from cur s))
  /\ (forall c cur, single_line cur = true ->
        Forall (fun l => single_line l = true)
          (splitlines_from cur (String c s))).
Proof.
  assert (Hsnoc : forall cur c,
             single_line cur = true ->
             Ascii.eqb c LF = false -> Ascii.eqb c CR = false ->
             single_line (cur +:+ String c "") = true).
  { intros cur c Hcur H1 H2. unfold single_line in *.
    rewrite forall_chars_app, Hcur. cbn. unfold is_terminator.
    now rewrite H1, H2. }
  induction s as [|c' s [IHa IHb]].
  - split.
    + intros cur Hcur. cbn. destruct (String.eqb cur ""); repeat constructor.
      exact Hcur.
    + intros c cur Hcur. cbn [splitlines_from].
      destruct (Ascii.eqb c LF) eqn:H1; [|destruct (Ascii.eqb c CR) eqn:H2].
      * repeat constructor. exact Hcur.
      * repeat constructor. exact Hcur.
      * pose proof (Hsnoc cur c Hcur H1 H2) as H.
        destruct (String.eqb (cur +:+ String c "") ""); repeat constructor.
        exact H.
  - split; [intros cur Hcur; now apply IHb|].
    intros c cur Hcur.
    change (splitlines_from cur (String c (String c' s)))
      with (if Ascii.eqb c LF then cur :: splitlines_from "" (String c' s)
            else if Ascii.eqb c CR then
                   if Ascii.eqb c' LF then cur :: splitlines_from "" s
                   else cur :: splitlines_from "" (String c' s)
                 else splitlines_from (cur +:+ String c "") (String c' s)).
    destruct (Ascii.eqb c LF) eqn:H1; [|destruct (Ascii.eqb c CR) eqn:H2].
    + constructor; [exact Hcur|now apply IHb].
    + destruct (Ascii.eqb c' LF); constructor; try exact Hcur;
        [now apply IHa|now apply IHb].
    + apply IHb. now apply Hsnoc.
Qed.

Lemma splitlines_single_line (s : string) :
  Forall (fun l => single_line l = true) (splitlines s).
Proof. now apply (proj1 (splitlines_from_single_line s)). Qed.

(** Lines that are not empty and hold no terminator, joined by newlines,
    split back into these lines. *)
Lemma splitlines_join (ls : list string) :
  Forall (fun l => l <> "" /\ single_line l = true) ls ->
  splitlines (String.concat NL ls) = ls.
Proof.
  induction 1 as [|x ls [Hx Hx'] Hls IH]; [reflexivity|].
  assert (Hlast : splitlines_from "" x = [x]).
  { rewrite <- (append_nil_r x) at 1.
    rewrite (splitlines_from_line x Hx'), append_nil_l.
    cbn [splitlines_from]. now rewrite (eqb_nil_false x Hx). }
  destruct ls as [|y ls]; [exact Hlast|].
  unfold splitlines in *.
  change (String.concat NL (x :: y :: ls))
    with (x +:+ NL +:+ String.concat NL (y :: ls)).
  rewrite (splitlines_from_line x Hx'), append_nil_l.
  unfold NL at 1. rewrite append_cons, append_nil_l.
  cbn [splitlines_from]. cbn [Ascii.eqb LF Bool.eqb]. now rewrite IH.
Qed.

Lemma filter_single_lines (f : string -> bool) (out : string) :
  Forall (fun l => single_line l = true) (List.filter f (splitlines out)).
Proof.
  apply List.Forall_forall. intros l [Hin _]%List.filter_In.
  pose proof (splitlines_single_line out) as H.
  rewrite List.Forall_forall in H. now apply H.
Qed.

Lemma key_lines_nonblank py (lines : list string) :
  Forall nonblank (key_lines py lines).
Proof.
  apply List.Forall_forall. intros l [_ Hk]%List.filter_In.
  intros ->. destruct py; discriminate Hk.
Qed.

Lemma error_lines_nonblank py (lines : list string) :
  Forall nonblank lines -> Forall nonblank (error_lines py lines).
Proof.
  intros H. rewrite List.Forall_forall in *.
  intros l [Hin _]%List.filter_In. now apply H.
Qed.

Lemma nonblank_single_lines (ls : list string) :
  Forall nonblank ls ->
  Forall (fun l => single_line l = true) ls ->
  Forall (fun l => l <> "" /\ single_line l = true) ls.
Proof.
  intros H1 H2. rewrite List.Forall_forall in *. intros l Hin.
  split; [now apply H1|now apply H2].
Qed.

(** ** Reading the entries back *)

(** X5: with the key dump on and a key line in an output without an empty
    line, on Python 2 the text of the dump entry after its heading splits
    back, line by line, into exactly the key lines of the output; on
    Python 3 the join of the key lines, which are [bytes], raises
    [TypeError] and no dump is reported. *)
Theorem key_dump_splits_back (py : python) (self : OSPDsshkeyscan)
    (os : subprocess) (scan_id target : string) (p : Z) (out : string) :
  get_scan_options self scan_id !! "sshport" = Some (PyInt p) ->
  os (keyscan_argv (str_of_Z p) target) = Exited 0 (Some out) ->
  Forall nonblank (splitlines out) ->
  truthy (dict_get (get_scan_options self scan_id) "sshkeyaslog") = true ->
  List.filter (is_key_line py) (splitlines out) <> [] ->
  match py with
  | Py2 =>
      exists body,
        key_dumps (trace (exec_scan py self os scan_id target))
        = [add_scan_log scan_id target "ssh-keyscan key dump"
             ("Via ssh-keyscan found keys:" +:+ NL +:+ NL +:+ body)]
        /\ splitlines body = List.filter (is_key_line py) (splitlines out)
  | Py3 =>
      key_dumps (trace (exec_scan py self os scan_id target)) = []
      /\ result (exec_scan py self os scan_id target) = Raise TypeError
  end.
Proof.
  intros Hport Hos Hall Hdump Hkeys.
  pose proof (exec_scan_captured py self os scan_id target p Hport out Hos Hall)
    as Hrun.
  fold (key_lines py (splitlines out)) in *.
  destruct py.
  - exists (String.concat NL (key_lines Py2 (splitlines out))). split.
    + rewrite Hrun, scan_report_key_dumps, Hdump. reflexivity.
    + apply splitlines_join, nonblank_single_lines.
      * apply key_lines_nonblank.
      * apply filter_single_lines.
  - rewrite Hrun, scan_report_key_dumps, Hdump.
    unfold scan_report, joins_succeed.
    destruct (key_lines Py3 (splitlines out)); [congruence|].
    cbn [length Nat.eqb negb orb]. rewrite !andb_false_r. split; reflexivity.
Qed.

Lemma key_dump_splits_back_witness :
  exists body,
    key_dumps
      (trace (exec_scan Py2 (daemon (PyInt 22) (PyInt 1))
                (tool (Exited 0 (Some ("host1 ssh-rsa AAAA" +:+ String CR NL
                                         +:+ "# banner" +:+ NL
                                         +:+ "host1 ssh-ed25519 BBBB"))))
                "scan-1" "host1"))
    = [add_scan_log "scan-1" "host1" "ssh-keyscan key dump"
         ("Via ssh-keyscan found keys:" +:+ NL +:+ NL +:+ body)]
    /\ splitlines body = ["host1 ssh-rsa AAAA"; "host1 ssh-ed25519 BBBB"].
Proof.
  apply (key_dump_splits_back Py2 (daemon (PyInt 22) (PyInt 1))
           (tool (Exited 0 (Some ("host1 ssh-rsa AAAA" +:+ String CR NL
                                    +:+ "# banner" +:+ NL
                                    +:+ "host1 ssh-ed25519 BBBB"))))
           "scan-1" "host1" 22
           ("host1 ssh-rsa AAAA" +:+ String CR NL +:+ "# banner" +:+ NL
              +:+ "host1 ssh-ed25519 BBBB"));
    try reflexivity.
  - vm_compute. repeat constructor; discriminate.
  - vm_compute. discriminate.
Defined.

(** X6: when an output without an empty line has malformed lines, on
    Python 2 the text of the single error entry after its heading splits
    back, line by line, into exactly the malformed lines, in their order; on
    Python 3 the join of the malformed lines, which are [bytes], raises
    [TypeError] and no error entry is reported. *)
Theorem parse_errors_split_back (py : python) (self : OSPDsshkeyscan)
    (os : subprocess) (scan_id target : string) (p : Z) (out : string) :
  get_scan_options self scan_id !! "sshport" = Some (PyInt p) ->
  os (keyscan_argv (str_of_Z p) target) = Exited 0 (Some out) ->
  Forall nonblank (splitlines out) ->
  List.filter (is_error_line py) (splitlines out) <> [] ->
  match py with
  | Py2 =>
      exists body,
        errors (trace (exec_scan py self os scan_id target))
        = [add_scan_error scan_id target
             ("The following lines caused parse errors:" +:+ NL +:+ NL
                +:+ body)]
        /\ splitlines body = List.filter (is_error_line py) (splitlines out)
  | Py3 =>
      errors (trace (exec_scan py self os scan_id target)) = []
      /\ result (exec_scan py self os scan_id target) = Raise TypeError
  end.
Proof.
  intros Hport Hos Hall Hbad.
  pose proof (exec_scan_captured py self os scan_id target p Hport out Hos Hall)
    as Hrun.
  fold (error_lines py (splitlines out)) in *.
  destruct py.
  - exists (String.concat NL (error_lines Py2 (splitlines out))). split.
    + rewrite Hrun. unfold scan_report. cbn [joins_succeed trace fst].
      rewrite full_trace_errors.
      destruct (error_lines Py2 (splitlines out)); [congruence|reflexivity].
    + apply splitlines_join, nonblank_single_lines.
      * now apply error_lines_nonblank.
      * apply filter_single_lines.
  - rewrite Hrun. unfold scan_report, joins_succeed.
    destruct (error_lines Py3 (splitlines out)) eqn:E; [congruence|].
    cbn [length Nat.eqb andb trace fst result snd]. split; [|reflexivity].
    unfold errors. rewrite List.filter_app.
    now rewrite (filter_host_details_none _ _ error_not_host_detail
                   (details_of_host_detail Py3 scan_id (str_of_Z p)
                      (splitlines out))).
Qed.

Lemma parse_errors_split_back_witness :
  errors
    (trace (exec_scan Py3 (daemon (PyInt 22) (PyInt 0))
              (tool (Exited 0 (Some ("badline" +:+ NL
                                       +:+ "host1 ssh-rsa AAAA" +:+ NL
                                       +:+ "a b c d" +:+ NL))))
              "scan-1" "host1")) = []
  /\ result
       (exec_scan Py3 (daemon (PyInt 22) (PyInt 0))
          (tool (Exited 0 (Some ("badline" +:+ NL
                                   +:+ "host1 ssh-rsa AAAA" +:+ NL
                                   +:+ "a b c d" +:+ NL))))
          "scan-1" "host1") = Raise TypeError.
Proof.
  apply (parse_errors_split_back Py3 (daemon (PyInt 22) (PyInt 0))
           (tool (Exited 0 (Some ("badline" +:+ NL
                                    +:+ "host1 ssh-rsa AAAA" +:+ NL
                                    +:+ "a b c d" +:+ NL))))
           "scan-1" "host1" 22
           ("badline" +:+ NL +:+ "host1 ssh-rsa AAAA" +:+ NL
              +:+ "a b c d" +:+ NL));
    try reflexivity.
  - vm_compute. repeat constructor; discriminate.
  - vm_compute. discriminate.
Defined.

(** ** Whole runs *)

(** X7: a scan with an integer port, a captured output and no empty line
    first reports the host detail of every key line, in the order of the
    lines, and then the summary.  When the joins succeed, it goes on with
    the error entry, if some line is malformed, and the key dump, if it is
    switched on, and returns 1; when a join fails, as on Python 3 with a
    malformed line or with the dump on and a key line, it raises
    [TypeError] right after the summary. *)
Theorem exec_scan_complete_run (py : python) (self : OSPDsshkeyscan)
    (os : subprocess) (scan_id target : string) (p : Z) (out : string) :
  get_scan_options self scan_id !! "sshport" = Some (PyInt p) ->
  os (keyscan_argv (str_of_Z p) target) = Exited 0 (Some out) ->
  Forall nonblank (splitlines out) ->
  exec_scan py self os scan_id target
  = if joins_succeed py
         (truthy (dict_get (get_scan_options self scan_id) "sshkeyaslog"))
         (splitlines out)
    then
      (flat_map (details_of py scan_id (str_of_Z p)) (splitlines out)
         ++ summary_entry scan_id target (str_of_Z p)
              (length (key_lines py (splitlines out)))
         :: match error_lines py (splitlines out) with
            | [] => []
            | bad => [parse_error_entry scan_id target bad]
            end
         ++ (if truthy (dict_get (get_scan_options self scan_id) "sshkeyaslog")
             then [key_dump_entry scan_id target
                     (key_lines py (splitlines out))]
             else []),
       Return 1%Z)
    else
      (flat_map (details_of py scan_id (str_of_Z p)) (splitlines out)
         ++ [summary_entry scan_id target (str_of_Z p)
               (length (key_lines py (splitlines out)))],
       Raise TypeError).
Proof.
  intros Hport Hos Hall.
  rewrite (exec_scan_captured py self os scan_id target p Hport out Hos Hall).
  unfold scan_report, full_trace.
  now destruct (error_lines py (splitlines out)).
Qed.

Lemma exec_scan_complete_run_witness :
  exec_scan Py3 (daemon (PyInt 22) (PyInt 1))
    (tool (Exited 0 (Some ("host1 ssh-rsa AAAA" +:+ NL +:+ "badline" +:+ NL))))
    "scan-1" "host1"
  = ([key_detail Py3 "scan-1" "22" "host1" "ssh-rsa" "AAAA";
      summary_entry "scan-1" "host1" "22" 1],
     Raise TypeError).
Proof.
  apply (exec_scan_complete_run Py3 (daemon (PyInt 22) (PyInt 1))
           (tool (Exited 0 (Some ("host1 ssh-rsa AAAA" +:+ NL
                                    +:+ "badline" +:+ NL))))
           "scan-1" "host1" 22
           ("host1 ssh-rsa AAAA" +:+ NL +:+ "badline" +:+ NL));
    try reflexivity.
  vm_compute. repeat constructor; discriminate.
Defined.

Lemma details_count (py : python) (scan_id p : string) (lines : list string) :
  length (flat_map (details_of py scan_id p) lines)
  = length (key_lines py lines).
Proof.
  induction lines as [|line lines IH]; [reflexivity|].
  cbn [flat_map]. rewrite length_app, IH.
  unfold key_lines. cbn [List.filter].
  unfold details_of, is_key_line, has_fields.
  destruct (is_comment py line); [reflexivity|].
  now destruct (fields line) as [[[h t] k]|].
Qed.

(** X8: in a scan of captured output without an empty line, the number of
    keys the summary states is the number of host-detail calls the scan has
    made. *)
Theorem summary_counts_host_details (py : python) (self : OSPDsshkeyscan)
    (os : subprocess) (scan_id target : string) (p : Z) (out : string) :
  get_scan_options self scan_id !! "sshport" = Some (PyInt p) ->
  os (keyscan_argv (str_of_Z p) target) = Exited 0 (Some out) ->
  Forall nonblank (splitlines out) ->
  summaries (trace (exec_scan py self os scan_id target))
  = [add_scan_log scan_id target "ssh-keyscan summary"
       ("Via ssh-keyscan "
          +:+ str_of_Z (Z.of_nat (length (host_details
                                            (trace (exec_scan py self os
                                                      scan_id target)))))
          +:+ " public ssh keys were found at port " +:+ str_of_Z p +:+ ".")].
Proof.
  intros Hport Hos Hall.
  rewrite (exec_scan_captured py self os scan_id target p Hport out Hos Hall).
  now rewrite scan_report_summaries, scan_report_host_details, details_count.
Qed.

Lemma summary_counts_host_details_witness :
  summaries
    (trace (exec_scan Py3 (daemon (PyInt 22) (PyInt 0))
              (tool (Exited 0 (Some ("host1 ssh-rsa AAAA" +:+ NL
                                       +:+ "# banner" +:+ NL
                                       +:+ "host2 ssh-rsa BBBB" +:+ NL))))
              "scan-1" "host1"))
  = [add_scan_log "scan-1" "host1" "ssh-keyscan summary"
       "Via ssh-keyscan 2 public ssh keys were found at port 22."].
Proof.
  apply (summary_counts_host_details Py3 (daemon (PyInt 22) (PyInt 0))
           (tool (Exited 0 (Some ("host1 ssh-rsa AAAA" +:+ NL
                                    +:+ "# banner" +:+ NL
                                    +:+ "host2 ssh-rsa BBBB" +:+ NL))))
           "scan-1" "host1" 22
           ("host1 ssh-rsa AAAA" +:+ NL +:+ "# banner" +:+ NL
              +:+ "host2 ssh-rsa BBBB" +:+ NL));
    try reflexivity.
  vm_compute. repeat constructor; discriminate.
Defined.

Lemma three_way_partition (py : python) (lines : list string) :
  Permutation lines
    (List.filter (is_comment py) lines ++ key_lines py lines
       ++ error_lines py lines).
Proof.
  induction lines as [|line lines IH]; [constructor|].
  unfold key_lines, error_lines, is_key_line, is_error_line in *.
  cbn [List.filter].
  destruct (is_comment py line), (has_fields line); cbn [negb andb app].
  - now constructor.
  - now constructor.
  - now apply Permutation_cons_app.
  - rewrite app_assoc. apply Permutation_cons_app. now rewrite <- app_assoc.
Qed.

(** X9: the parsing loop accounts for every line.  On lines none of which is
    empty it ends without an exception, and its accumulators [key_data] and
    [parse_errors], together with the lines its comment test skips, are a
    rearrangement of the lines: no line is lost and none is taken twice; and
    it has made one host-detail call for each line in [key_data].  The
    comment test skips the lines that start with [#] on Python 2 and no
    line on Python 3. *)
Theorem loop_accounts_for_every_line (py : python) (scan_id : string)
    (port : pyval) (p : string) (lines : list string) :
  Forall nonblank lines ->
  format_d port = ret p ->
  exists t key_data parse_errors,
    for_each (scan_line py scan_id port) lines ([], [])
    = (t, Return (key_data, parse_errors))
    /\ Permutation lines
         (List.filter (fun line => match py with
                                   | Py2 => starts_with_hash line
                                   | Py3 => false
                                   end) lines
            ++ key_data ++ parse_errors)
    /\ length t = length key_data.
Proof.
  intros Hall Hp.
  rewrite (for_each_nonblank py scan_id port p lines Hall Hp).
  eexists _, _, _. split; [reflexivity|]. cbn [app]. split.
  - apply (three_way_partition py).
  - apply details_count.
Qed.

Lemma loop_accounts_for_every_line_witness :
  exists t key_data parse_errors,
    for_each (scan_line Py3 "scan-1" (PyInt 22))
      ["# banner"; "host1 ssh-rsa AAAA"; "badline"] ([], [])
    = (t, Return (key_data, parse_errors))
    /\ Permutation ["# banner"; "host1 ssh-rsa AAAA"; "badline"]
         (List.filter (fun _ => false)
            ["# banner"; "host1 ssh-rsa AAAA"; "badline"]
            ++ key_data ++ parse_errors)
    /\ length t = length key_data.
Proof.
  apply (loop_accounts_for_every_line Py3 "scan-1" (PyInt 22) "22"
           ["# banner"; "host1 ssh-rsa AAAA"; "badline"]);
    [repeat constructor; discriminate|reflexivity].
Defined.

(** ** Runs that do not reach the parsing *)

(** X10: when the option [sshport] is missing from the options of the scan,
    or is not a number, [exec_scan] raises [TypeError] while it builds the
    command line: the tool is not run, whatever the system is, and nothing
    is reported. *)
Theorem exec_scan_port_not_a_number (py : python) (self : OSPDsshkeyscan)
    (os : subprocess) (scan_id target : string) :
  is_number (dict_get (get_scan_options self scan_id) "sshport") = false ->
  exec_scan py self os scan_id target = ([], Raise TypeError).
Proof.
  intros Hport. unfold exec_scan.
  destruct (dict_get (get_scan_options self scan_id) "sshport");
    [reflexivity|discriminate Hport|discriminate Hport|reflexivity].
Qed.

Lemma exec_scan_port_not_a_number_witness :
  exec_scan Py3
    {| get_scan_options := fun _ => <["sshkeyaslog" := PyInt 1]> ∅ |}
    (tool (Exited 0 (Some ("host1 ssh-rsa AAAA" +:+ NL)))) "scan-1" "host1"
  = ([], Raise TypeError).
Proof.
  apply (exec_scan_port_not_a_number Py3
           {| get_scan_options := fun _ => <["sshkeyaslog" := PyInt 1]> ∅ |}
           (tool (Exited 0 (Some ("host1 ssh-rsa AAAA" +:+ NL))))
           "scan-1" "host1").
  reflexivity.
Defined.

(** X11: when the tool cannot be launched, [exec_scan], unlike [check], does
    not handle the [OSError] of the call: nothing is reported and no exit
    code is returned. *)
Theorem exec_scan_tool_not_launched (py : python) (self : OSPDsshkeyscan)
    (os : subprocess) (scan_id target : string) (p : Z) :
  get_scan_options self scan_id !! "sshport" = Some (PyInt p) ->
  os (keyscan_argv (str_of_Z p) target) = LaunchFailed ->
  os ["ssh-keyscan"] = LaunchFailed ->
  exec_scan py self os scan_id target = ([], Raise OSError)
  /\ check os = ret false.
Proof.
  intros Hport Hos Hcheck. split.
  - exact (exec_scan_launch_failed py self os scan_id target p Hport Hos).
  - unfold check, check_output. now rewrite Hcheck.
Qed.

Lemma exec_scan_tool_not_launched_witness :
  exec_scan Py3 (daemon (PyInt 22) (PyInt 0)) (tool LaunchFailed)
    "scan-1" "host1"
  = ([], Raise OSError)
  /\ check (tool LaunchFailed) = ret false.
Proof.
  apply (exec_scan_tool_not_launched Py3 (daemon (PyInt 22) (PyInt 0))
           (tool LaunchFailed) "scan-1" "host1" 22); reflexivity.
Defined.

(** X12: when the captured output has an empty line, [exec_scan] raises
    [IndexError] at the first one.  The host details of the key lines before
    it have been reported by then; no summary, no error entry and no key
    dump is, and the lines after it are not looked at. *)
Theorem exec_scan_stops_at_empty_line (py : python) (self : OSPDsshkeyscan)
    (os : subprocess) (scan_id target : string) (p : Z) (out : string)
    (pre post : list string) :
  get_scan_options self scan_id !! "sshport" = Some (PyInt p) ->
  os (keyscan_argv (str_of_Z p) target) = Exited 0 (Some out) ->
  splitlines out = pre ++ "" :: post ->
  Forall nonblank pre ->
  exec_scan py self os scan_id target
  = (flat_map (details_of py scan_id (str_of_Z p)) pre, Raise IndexError)
  /\ host_details (trace (exec_scan py self os scan_id target))
     = trace (exec_scan py self os scan_id target)
  /\ length (trace (exec_scan py self os scan_id target))
     = length (List.filter
                 (fun line => negb (match py with
                                    | Py2 => starts_with_hash line
                                    | Py3 => false
                                    end)
                              && has_fields line) pre).
Proof.
  intros Hport Hos Hsplit Hpre.
  rewrite (exec_scan_blank py self os scan_id target p Hport out pre post
             Hos Hsplit Hpre).
  split; [reflexivity|]. cbn [trace fst]. split.
  - apply filter_host_details_all, details_of_host_detail.
  - apply details_count.
Qed.

Lemma exec_scan_stops_at_empty_line_witness :
  exec_scan Py3 (daemon (PyInt 22) (PyInt 1))
    (tool (Exited 0 (Some ("# host1:22 SSH-2.0-OpenSSH_8.9" +:+ NL
                             +:+ "host1 ssh-rsa AAAA" +:+ NL +:+ NL
                             +:+ "host2 ssh-rsa BBBB" +:+ NL))))
    "scan-1" "host1"
  = ([add_scan_host_detail "scan-1" (Bytes "#") "ssh-key"
        "22 b'host1:22' b'SSH-2.0-OpenSSH_8.9'";
      add_scan_host_detail "scan-1" (Bytes "host1") "ssh-key"
        "22 b'ssh-rsa' b'AAAA'"],
     Raise IndexError).
Proof.
  apply (proj1 (exec_scan_stops_at_empty_line Py3 (daemon (PyInt 22) (PyInt 1))
           (tool (Exited 0 (Some ("# host1:22 SSH-2.0-OpenSSH_8.9" +:+ NL
                                    +:+ "host1 ssh-rsa AAAA" +:+ NL +:+ NL
                                    +:+ "host2 ssh-rsa BBBB" +:+ NL))))
           "scan-1" "host1" 22
           ("# host1:22 SSH-2.0-OpenSSH_8.9" +:+ NL
              +:+ "host1 ssh-rsa AAAA" +:+ NL +:+ NL
              +:+ "host2 ssh-rsa BBBB" +:+ NL)
           ["# host1:22 SSH-2.0-OpenSSH_8.9"; "host1 ssh-rsa AAAA"]
           ["host2 ssh-rsa BBBB"] eq_refl eq_refl eq_refl
           ltac:(repeat constructor; discriminate))).
Defined.

(** X13: switching the key dump on changes none of the calls a scan makes
    before it: for the same port, system and output without an empty line,
    the calls of the scan with [sshkeyaslog] true are the calls of the scan
    with [sshkeyaslog] false, in the same order, followed by the key dump
    when the joins succeed, and by nothing when one fails. *)
Theorem key_dump_only_appends (py : python) (self self' : OSPDsshkeyscan)
    (os : subprocess) (scan_id target : string) (p : Z) (out : string) :
  get_scan_options self scan_id !! "sshport" = Some (PyInt p) ->
  get_scan_options self' scan_id !! "sshport" = Some (PyInt p) ->
  os (keyscan_argv (str_of_Z p) target) = Exited 0 (Some out) ->
  Forall nonblank (splitlines out) ->
  truthy (dict_get (get_scan_options self scan_id) "sshkeyaslog") = false ->
  truthy (dict_get (get_scan_options self' scan_id) "sshkeyaslog") = true ->
  trace (exec_scan py self' os scan_id target)
  = trace (exec_scan py self os scan_id target)
      ++ (if joins_succeed py true (splitlines out)
          then [key_dump_entry scan_id target (key_lines py (splitlines out))]
          else []).
Proof.
  intros Hport Hport' Hos Hall Hoff Hon.
  rewrite (exec_scan_captured py self os scan_id target p Hport out Hos Hall).
  rewrite (exec_scan_captured py self' os scan_id target p Hport' out Hos Hall).
  rewrite Hoff, Hon. unfold scan_report, joins_succeed, full_trace.
  destruct py, (error_lines _ (splitlines out)) as [|b bs],
    (key_lines _ (splitlines out)) as [|k ks];
    cbn [length Nat.eqb Nat.ltb Nat.leb negb orb andb trace fst];
    now rewrite ?app_nil_r, <- ?app_assoc.
Qed.

Lemma key_dump_only_appends_witness :
  trace (exec_scan Py2 (daemon (PyInt 22) (PyBool true))
           (tool (Exited 0 (Some ("host1 ssh-rsa AAAA" +:+ NL
                                    +:+ "badline" +:+ NL))))
           "scan-1" "host1")
  = trace (exec_scan Py2 (daemon (PyInt 22) (PyInt 0))
             (tool (Exited 0 (Some ("host1 ssh-rsa AAAA" +:+ NL
                                      +:+ "badline" +:+ NL))))
             "scan-1" "host1")
      ++ [key_dump_entry "scan-1" "host1" ["host1 ssh-rsa AAAA"]].
Proof.
  apply (key_dump_only_appends Py2 (daemon (PyInt 22) (PyInt 0))
           (daemon (PyInt 22) (PyBool true))
           (tool (Exited 0 (Some ("host1 ssh-rsa AAAA" +:+ NL
                                    +:+ "badline" +:+ NL))))
           "scan-1" "host1" 22
           ("host1 ssh-rsa AAAA" +:+ NL +:+ "badline" +:+ NL));
    try reflexivity.
  repeat constructor; discriminate.
Defined.

(** X14: [exec_scan] returns no exit code other than 1 and 2.  A run that
    returns 2 has reported exactly the two error entries of the empty
    result; a run that returns 1 has reported exactly one summary entry, for
    the target. *)
Theorem exec_scan_exit_codes (py : python) (self : OSPDsshkeyscan)
    (os : subprocess) (scan_id target : string) (z : Z) :
  result (exec_scan py self os scan_id target) = Return z ->
  (z = 2%Z
   /\ trace (exec_scan py self os scan_id target)
      = [add_scan_error scan_id target
           "A problem occurred trying to execute 'ssh-keyscan'.";
         add_scan_error scan_id target
           "The result of 'ssh-keyscan' was empty."])
  \/ (z = 1%Z
      /\ exists value,
          summaries (trace (exec_scan py self os scan_id target))
          = [add_scan_log scan_id target "ssh-keyscan summary" value]).
Proof.
  unfold exec_scan.
  remember (dict_get (get_scan_options self scan_id) "sshport") as port.
  remember (format_d port) as m eqn:Hp. symmetry in Hp.
  destruct m as [t0 [p|e]]; pose proof (format_d_no_call _ _ _ Hp) as ->;
    [|discriminate].
  rewrite bind_pure. unfold check_output.
  match goal with
  | |- context [match ?o ?argv with LaunchFailed => _ | Exited _ _ => _ end] =>
      destruct (o argv) as [|rc res]
  end; [discriminate|].
  destruct (Z.eqb rc 0); [|discriminate].
  rewrite bind_ret_l.
  destruct res as [out|];
    [|cbn; intros [= <-]; left; split; reflexivity].
  pose proof (for_each_trace py scan_id port (splitlines out) ([], [])) as Ht.
  destruct (for_each (scan_line py scan_id port) (splitlines out) ([], []))
    as [t [[kd pe]|e]];
    cbn [bind trace fst result snd] in *; [|discriminate].
  cbn [format_d]. rewrite ?bind_ret_l, ?bind_pure, ?bind_ret_l.
  destruct py, pe as [|b bs], kd as [|k ks],
    (truthy (dict_get (get_scan_options self scan_id) "sshkeyaslog"));
    cbn [bind emit ret raise join app trace fst result snd length
         Nat.ltb Nat.leb];
    intros [= <-]; right; (split; [reflexivity|]);
    eexists; unfold summaries; rewrite List.filter_app;
    rewrite (filter_host_details_none _ _
               (log_not_host_detail "ssh-keyscan summary") Ht);
    reflexivity.
Qed.

Lemma exec_scan_exit_codes_witness :
  (1%Z = 2%Z
   /\ trace (exec_scan Py3 (daemon (PyBool true) (PyInt 0))
               (tool (Exited 0 (Some ("host1 ssh-rsa AAAA" +:+ NL))))
               "scan-1" "host1")
      = [add_scan_error "scan-1" "host1"
           "A problem occurred trying to execute 'ssh-keyscan'.";
         add_scan_error "scan-1" "host1"
           "The result of 'ssh-keyscan' was empty."])
  \/ (1%Z = 1%Z
      /\ exists value,
          summaries
            (trace (exec_scan Py3 (daemon (PyBool true) (PyInt 0))
                      (tool (Exited 0 (Some ("host1 ssh-rsa AAAA" +:+ NL))))
                      "scan-1" "host1"))
          = [add_scan_log "scan-1" "host1" "ssh-keyscan summary" value]).
Proof.
  apply (exec_scan_exit_codes Py3 (daemon (PyBool true) (PyInt 0))
           (tool (Exited 0 (Some ("host1 ssh-rsa AAAA" +:+ NL))))
           "scan-1" "host1" 1).
  reflexivity.
Defined.
